(** * RBAC over a resource tree: a model of [rbac_resourcetree.mjs]

    The development embeds the classes [Permission], [Target], [User],
    [Role] and [RBACUtil] of [rbac_resourcetree.mjs] as Rocq functions and
    states the properties of the authorization engine over them.

    JavaScript values are modelled by the type [Val].  Strings are Rocq
    strings (sequences of 8-bit characters); numbers are the integers.  An
    object is modelled by its contents at the time of the call: a method
    that changes [this] returns the new state of the object.  A [throw] is
    the [Throw] outcome of the result monad [Result]. *)

From Stdlib Require Import ZArith List Bool Ascii String Lia.
From Stdlib Require Import Numbers.DecimalString.
From Stdlib Require Import Sorting.Permutation.
Import ListNotations.

Open Scope string_scope.
Open Scope Z_scope.

Set Warnings "-register-all".

(** ** Outcomes: a value or an exception *)

Module Outcome.

(** What a [throw] carries: [new Error(msg)] written in the source, or the
    [TypeError] the language raises itself (a property read on
    [undefined]/[null], a call of something that is not a function). *)
Inductive Exn : Type :=
| Error (msg : string)
| TypeError (what : string).

Inductive Result (A : Type) : Type :=
| Ok (a : A)
| Throw (e : Exn).

Arguments Ok {A} a.
Arguments Throw {A} e.

Definition bind {A B : Type} (m : Result A) (k : A -> Result B) : Result B :=
  match m with
  | Ok a => k a
  | Throw e => Throw e
  end.

End Outcome.
Export Outcome.

Notation "x <- m ;; k" := (bind m (fun x => k))
  (at level 61, m at next level, right associativity).

(** ** The static members of class [Permission] *)

Module Permission.
Definition CREATE : string := "CREATE".
Definition READ : string := "READ".
Definition UPDATE : string := "UPDATE".
Definition DELETE : string := "DELETE".
Definition SHARE : string := "SHARE".
Definition ALL : string := "ALL".
End Permission.

(** ** Values *)

(** An instance of [Target]: the fields [level] and [uri] that the
    constructor sets.  The constructor only stores strings in [level]. *)
Record Target : Type := mkTarget {
  level : list string;
  uri : string
}.

(** The values the functions of the module can be called with.  [VObj] is an
    object that is an instance of none of the three classes, given by its own
    properties.  [Role] and [User] hold what their constructors store:
    [targets] is an array of [Target] instances and [roles] an array of [Role]
    instances (both constructors check it), while [roleId], [roleName],
    [roleDescription], [target], [permissions], [userId] and [userName] are
    stored as they were passed. *)
Inductive Val : Type :=
| VUndefined
| VNull
| VBool (b : bool)
| VNum (n : Z)
| VStr (s : string)
| VArr (elems : list Val)
| VObj (props : list (string * Val))
| VTarget (t : Target)
| VRole (r : Role)
| VUser (u : User)
with Role : Type :=
| mkRole (roleId roleName roleDescription : Val) (targets : list Target)
         (target : Val) (permissions : Val)
with User : Type :=
| mkUser (roles : list Role) (userId userName : Val).

Definition roleId (r : Role) : Val := let (x, _, _, _, _, _) := r in x.
Definition roleName (r : Role) : Val := let (_, x, _, _, _, _) := r in x.
Definition roleDescription (r : Role) : Val := let (_, _, x, _, _, _) := r in x.
Definition targets (r : Role) : list Target := let (_, _, _, x, _, _) := r in x.
Definition target (r : Role) : Val := let (_, _, _, _, x, _) := r in x.
Definition permissions (r : Role) : Val := let (_, _, _, _, _, x) := r in x.

Definition roles (u : User) : list Role := let (x, _, _) := u in x.
Definition userId (u : User) : Val := let (_, x, _) := u in x.
Definition userName (u : User) : Val := let (_, _, x) := u in x.

(** [this.permissions = ps] *)
Definition set_permissions (r : Role) (ps : Val) : Role :=
  mkRole (roleId r) (roleName r) (roleDescription r) (targets r) (target r) ps.

(** ** The operators of the language that the source uses *)

Module Js.

(** [!v] is [negb (truthy v)]. *)
Definition truthy (v : Val) : bool :=
  match v with
  | VUndefined | VNull => false
  | VBool b => b
  | VNum n => negb (n =? 0)
  | VStr s => negb (String.eqb s "")
  | _ => true
  end.

(** [typeof v === 'string'] *)
Definition is_string (v : Val) : bool :=
  match v with VStr _ => true | _ => false end.

(** [v instanceof Target] and [v instanceof Role].  The tests
    [v instanceof User] and [Array.isArray(v)] are written as a [match] on
    [VUser] and [VArr] where the source makes them. *)
Definition instanceof_Target (v : Val) : bool :=
  match v with VTarget _ => true | _ => false end.
Definition instanceof_Role (v : Val) : bool :=
  match v with VRole _ => true | _ => false end.

(** [String(n)] for an integer [n]: its decimal digits. *)
Definition string_of_Z (n : Z) : string :=
  NilZero.string_of_int (Z.to_int n).

(** [String(v)], as string concatenation and [==] against a string apply
    it: an array is its elements joined by a comma, with [undefined] and
    [null] elements left empty; any other object is ["[object Object]"]. *)
Fixpoint to_string (v : Val) : string :=
  match v with
  | VUndefined => "undefined"
  | VNull => "null"
  | VBool true => "true"
  | VBool false => "false"
  | VNum n => string_of_Z n
  | VStr s => s
  | VArr elems =>
      String.concat ","
        (map (fun e => match e with
                       | VUndefined | VNull => ""
                       | _ => to_string e
                       end) elems)
  | _ => "[object Object]"
  end.

(** [a === b].  Primitive values are compared by value.  Two objects are
    [===] only when they are one and the same object; the model keeps no
    object identities and takes two object operands to be distinct
    objects. *)
Definition strict_eq (a b : Val) : bool :=
  match a, b with
  | VUndefined, VUndefined => true
  | VNull, VNull => true
  | VBool x, VBool y => Bool.eqb x y
  | VNum x, VNum y => x =? y
  | VStr x, VStr y => String.eqb x y
  | _, _ => false
  end.

(** [v == name] for [name] one of the six permission names.  None of them
    reads as a number, so a number or a boolean is never [==] to it;
    [undefined] and [null] are [==] only to each other; an object is first
    turned into a string. *)
Definition loose_eq_name (v : Val) (name : string) : bool :=
  match v with
  | VUndefined | VNull | VBool _ | VNum _ => false
  | VStr s => String.eqb s name
  | _ => String.eqb (to_string v) name
  end.

(** [v.name] for a property [name] of the objects of the module.  Reading a
    property of [undefined] or [null] throws; a primitive value and an
    array have none of the properties read in the source. *)
Fixpoint lookup (name : string) (props : list (string * Val)) : Val :=
  match props with
  | [] => VUndefined
  | (k, v) :: rest => if String.eqb k name then v else lookup name rest
  end.

Definition get_prop (v : Val) (name : string) : Result Val :=
  match v with
  | VUndefined | VNull =>
      Throw (TypeError ("Cannot read properties of " ++ to_string v))
  | VObj props => Ok (lookup name props)
  | VTarget t =>
      Ok (if String.eqb name "level" then VArr (map VStr (level t))
          else if String.eqb name "uri" then VStr (uri t)
          else VUndefined)
  | VRole r =>
      Ok (if String.eqb name "roleId" then roleId r
          else if String.eqb name "roleName" then roleName r
          else if String.eqb name "roleDescription" then roleDescription r
          else if String.eqb name "targets" then VArr (map VTarget (targets r))
          else if String.eqb name "target" then target r
          else if String.eqb name "permissions" then permissions r
          else VUndefined)
  | VUser u =>
      Ok (if String.eqb name "roles" then VArr (map VRole (roles u))
          else if String.eqb name "userId" then userId u
          else if String.eqb name "userName" then userName u
          else VUndefined)
  | _ => Ok VUndefined
  end.

(** [s.indexOf(search)]: the least position at which [search] occurs in
    [s], or [-1]. *)
Fixpoint indexOf_from (s search : string) (k : Z) : Z :=
  if String.prefix search s then k
  else match s with
       | EmptyString => -1
       | String _ s' => indexOf_from s' search (k + 1)
       end.

Definition indexOf (s search : string) : Z := indexOf_from s search 0.

(** [s.split(sep)] for a one-character separator.  The result is never
    empty: the empty string splits into one empty segment. *)
Fixpoint split (sep : ascii) (s : string) : list string :=
  match s with
  | EmptyString => [EmptyString]
  | String c s' =>
      if Ascii.eqb c sep then EmptyString :: split sep s'
      else match split sep s' with
           | [] => [String c EmptyString]
           | seg :: segs => String c seg :: segs
           end
  end.

(** [arr.join(sep)] on an array of strings *)
Definition join (sep : string) (l : list string) : string :=
  String.concat sep l.

(** [arr.find(f)]: the first element for which the callback returns a
    truthy value, [undefined] when there is none.  An exception thrown by
    the callback ends the search. *)
Fixpoint find (f : Val -> Result Val) (l : list Val) : Result Val :=
  match l with
  | [] => Ok VUndefined
  | x :: rest =>
      r <- f x ;;
      if truthy r then Ok x else find f rest
  end.

(** [arr.filter(f)] *)
Fixpoint filter (f : Val -> Result Val) (l : list Val) : Result (list Val) :=
  match l with
  | [] => Ok []
  | x :: rest =>
      r <- f x ;;
      kept <- filter f rest ;;
      Ok (if truthy r then x :: kept else kept)
  end.

End Js.
Import Js.

(** ** class [Target] *)

(** [new Target(...argStrings)].  When the second test passes every argument
    is a string, which [to_string] leaves as it is: [level] holds the
    arguments themselves and [uri] is their [join]. *)
Definition Target_constructor (argStrings : list Val) : Result Target :=
  if Nat.eqb (List.length argStrings) 0 then
    Throw (Error "Needs at least one argument")
  else if Nat.ltb 0 (List.length
                       (List.filter (fun arg => negb (is_string arg)) argStrings)) then
    Throw (Error "All arguments must be strings")
  else
    let level := map to_string argStrings in
    Ok (mkTarget level ("target://" ++ join "/" level)).

(** ** class [User] *)

(** The elements of an array that are instances of [Role], resp. [Target]:
    the whole array once [every] element has been checked to be one. *)
Definition roles_of (l : list Val) : list Role :=
  flat_map (fun v => match v with VRole r => [r] | _ => [] end) l.

Definition targets_of (l : list Val) : list Target :=
  flat_map (fun v => match v with VTarget t => [t] | _ => [] end) l.

(** [new User(userId, userName, roles)] *)
Definition User_constructor (userId userName roles : Val) : Result User :=
  if negb (truthy userId) then Throw (Error "userId must be provided")
  else if negb (truthy roles) then Throw (Error "roles must be provided")
  else match roles with
       | VArr rs =>
           if Nat.ltb 0 (List.length
                           (List.filter (fun r => negb (instanceof_Role r)) rs)) then
             Throw (Error "all roles must be instances of Role class")
           else Ok (mkUser (roles_of rs) userId userName)
       | _ => Throw (Error "roles must be an array")
       end.

(** ** class [Role] *)

(** [arr.map(f)] for a callback that may throw *)
Fixpoint map_m {A B : Type} (f : A -> Result B) (l : list A) : Result (list B) :=
  match l with
  | [] => Ok []
  | x :: rest =>
      y <- f x ;;
      ys <- map_m f rest ;;
      Ok (y :: ys)
  end.

(** [new Target(...t.split('/'))] for a string [t] *)
Definition Target_of_path (t : string) : Result Target :=
  Target_constructor (map VStr (split "/" t)).

(** [new Role(roleId, roleName, roleDescription, target, permissions=[])].
    The default value replaces an [undefined] argument. *)
Definition Role_constructor
    (roleId roleName roleDescription target permissions : Val) : Result Role :=
  let permissions :=
    match permissions with VUndefined => VArr [] | _ => permissions end in
  if negb (truthy roleId) then Throw (Error "roleId must be provided")
  else if negb (truthy roleName) then Throw (Error "roleName must be provided")
  else
    this_targets <-
      (if negb (truthy target) then Throw (Error "target must be provided")
       else match target with
            | VStr s =>
                t <- Target_of_path s ;; Ok [t]
            | VTarget t => Ok [t]
            | VArr elems =>
                if forallb is_string elems then
                  map_m (fun t => Target_of_path (to_string t)) elems
                else if forallb instanceof_Target elems then
                  Ok (targets_of elems)
                else
                  Throw (Error "Invalid target. Must be a string, Target instance or array of strings/Target instances")
            | _ =>
                Throw (Error "Invalid target. Must be a string, Target instance or array of strings/Target instances")
            end) ;;
    Ok (mkRole roleId roleName roleDescription this_targets target permissions).

Definition invalid_permission (permission : Val) : Exn :=
  Error ("Invalid permission: " ++ to_string permission
         ++ ". Must be one of CREATE, READ, UPDATE, DELETE, SHARE, ALL").

(** [permission !== Permission.CREATE && ... && permission !== Permission.ALL] *)
Definition no_name_strictly (permission : Val) : bool :=
  negb (strict_eq permission (VStr Permission.CREATE))
  && negb (strict_eq permission (VStr Permission.READ))
  && negb (strict_eq permission (VStr Permission.UPDATE))
  && negb (strict_eq permission (VStr Permission.DELETE))
  && negb (strict_eq permission (VStr Permission.SHARE))
  && negb (strict_eq permission (VStr Permission.ALL)).

(** [permission != Permission.CREATE && ... && permission != Permission.ALL] *)
Definition no_name_loosely (permission : Val) : bool :=
  negb (loose_eq_name permission Permission.CREATE)
  && negb (loose_eq_name permission Permission.READ)
  && negb (loose_eq_name permission Permission.UPDATE)
  && negb (loose_eq_name permission Permission.DELETE)
  && negb (loose_eq_name permission Permission.SHARE)
  && negb (loose_eq_name permission Permission.ALL).

(** The callback of [find] in [addPermission]:
    [p => p.permission === permission.permission
          && p.targetType === permission.targetType] *)
Definition same_permission (permission p : Val) : Result Val :=
  a <- get_prop p "permission" ;;
  b <- get_prop permission "permission" ;;
  if strict_eq a b then
    c <- get_prop p "targetType" ;;
    d <- get_prop permission "targetType" ;;
    Ok (VBool (strict_eq c d))
  else Ok (VBool false).

(** [role.addPermission(permission)]; the result is the role after the call. *)
Definition addPermission (this : Role) (permission : Val) : Result Role :=
  if negb (truthy permission) then
    Throw (Error "permission is null or undefined")
  else if no_name_strictly permission then
    Throw (invalid_permission permission)
  else
    match permissions this with
    | VArr ps =>
        found <- find (same_permission permission) ps ;;
        if truthy found then Throw (Error "permission already exists in role")
        else Ok (set_permissions this (VArr (ps ++ [permission])))
    | _ => Throw (TypeError "this.permissions.find")
    end.

(** The callback of [filter] in [removePermission]:
    [p => { p.permission !== permission.permission
            || p.targetType !== permission.targetType }].
    The body is a block whose only statement is the comparison: it is
    evaluated, its value is dropped, and the callback returns [undefined]. *)
Definition other_permission (permission p : Val) : Result Val :=
  a <- get_prop p "permission" ;;
  b <- get_prop permission "permission" ;;
  _ <- (if negb (strict_eq a b) then Ok (VBool true)
        else
          c <- get_prop p "targetType" ;;
          d <- get_prop permission "targetType" ;;
          Ok (VBool (negb (strict_eq c d)))) ;;
  Ok VUndefined.

(** [role.removePermission(permission)]; the result is the role after the
    call. *)
Definition removePermission (this : Role) (permission : Val) : Result Role :=
  match permissions this with
  | VArr ps =>
      kept <- filter (other_permission permission) ps ;;
      Ok (set_permissions this (VArr kept))
  | _ => Throw (TypeError "this.permissions.filter")
  end.

(** The callback of the first [find] in [authorize]:
    [rt => target.uri.indexOf(rt.uri) === 0] *)
Definition uri_starts_with (target rt : Target) : bool :=
  indexOf (uri target) (uri rt) =? 0.

(** The callback of the second [find] in [authorize]:
    [p => p === permission || p === Permission.ALL] *)
Definition grants (permission p : Val) : Result Val :=
  Ok (VBool (strict_eq p permission || strict_eq p (VStr Permission.ALL))).

(** [role.authorize(permission, target)].  The value is that of
    [this.targets.find(..) && this.permissions.find(..)]: the left operand
    when it is falsy ([undefined], as a [Target] is an object), the right
    operand otherwise. *)
Definition authorize (this : Role) (permission target : Val) : Result Val :=
  if negb (truthy target) then Throw (Error "target must be provided")
  else match target with
       | VTarget tgt =>
           if negb (truthy permission) then
             Throw (Error "permission must be provided")
           else if no_name_loosely permission then
             Throw (invalid_permission permission)
           else
             match List.find (uri_starts_with tgt) (targets this) with
             | None => Ok VUndefined
             | Some _ =>
                 match permissions this with
                 | VArr ps => find (grants permission) ps
                 | _ => Throw (TypeError "this.permissions.find")
                 end
             end
       | _ => Throw (Error "target must be an instance of Target")
       end.

(** ** class [RBACUtil] *)

Module RBACUtil.

(** The loop [for (let role of user.roles) { if (role.authorize(permission,
    target)) return true; } return false;] *)
Fixpoint any_role_authorizes (roles : list Role) (permission target : Val)
  : Result Val :=
  match roles with
  | [] => Ok (VBool false)
  | role :: rest =>
      v <- authorize role permission target ;;
      if truthy v then Ok (VBool true)
      else any_role_authorizes rest permission target
  end.

(** [RBACUtil.authorizeUser(user, permission, target)] *)
Definition authorizeUser (user permission target : Val) : Result Val :=
  match user with
  | VUser u =>
      if negb (truthy target) || negb (instanceof_Target target) then
        Throw (Error "target must be provided and must be an instance of Target")
      else if negb (truthy permission) || no_name_loosely permission then
        Throw (invalid_permission permission)
      else any_role_authorizes (roles u) permission target
  | _ => Throw (Error "user must be provided and must be an instance of User")
  end.

End RBACUtil.

(** ** The demonstration of [RBACDemo.run] *)

Module RBACDemo.

Definition path (segments : list string) : Target :=
  mkTarget segments ("target://" ++ join "/" segments).

Definition names (l : list string) : Val := VArr (map VStr l).

Definition ingenAdmin : Role :=
  mkRole (VStr "IngenAdmin") (VStr "IngenAdmin")
    (VStr "Admin role with all permissions for InGen tenant")
    [path ["InGen"]] (VTarget (path ["InGen"]))
    (names [Permission.ALL]).

Definition ingenEnggHM : Role :=
  mkRole (VStr "IngenEnggHM") (VStr "IngenEngineeringHiringManager")
    (VStr "Hiring Manager role with read, write and delete permissions for InGen Engineering workspace")
    [path ["InGen"; "Engineering"; "job789"]]
    (VTarget (path ["InGen"; "Engineering"; "job789"]))
    (names [Permission.READ; Permission.CREATE; Permission.UPDATE;
            Permission.DELETE]).

Definition ingenInterviewer1 : Role :=
  mkRole (VStr "IngenInterviewer") (VStr "IngenInterviewer")
    (VStr "Interviewer role with read and write permissions for InGen Engineering workspace")
    [path ["InGen"; "Engineering"; "job789"; "Interview1"]]
    (VTarget (path ["InGen"; "Engineering"; "job789"; "Interview1"]))
    (names [Permission.READ; Permission.UPDATE]).

Definition anita : Val :=
  VUser (mkUser [ingenEnggHM] (VStr "anita") (VStr "Anita")).
Definition bala : Val :=
  VUser (mkUser [ingenAdmin] (VStr "bala") (VStr "Bala")).
Definition deepak : Val :=
  VUser (mkUser [ingenInterviewer1] (VStr "deepak") (VStr "Deepak")).

End RBACDemo.

(** ** The specification's wording of scope containment *)

Module Spec.

(** Section 4.1: [S] contains-or-equals [T] iff the address of [S] is a
    prefix of the address of [T] and the next character of [T]'s address
    after the shared prefix, if any, is the segment separator. *)
Definition containsOrEquals (S T : Target) : bool :=
  String.prefix (uri S) (uri T)
  && match String.get (String.length (uri S)) (uri T) with
     | None => true
     | Some c => Ascii.eqb c "/"
     end.

End Spec.

(** ** Valid permission names *)

(** The six names of class [Permission]. *)
Definition is_permission (a : string) : bool :=
  existsb (String.eqb a)
    [Permission.CREATE; Permission.READ; Permission.UPDATE;
     Permission.DELETE; Permission.SHARE; Permission.ALL].

(** [c] occurs in [s] *)
Fixpoint has_char (c : ascii) (s : string) : bool :=
  match s with
  | EmptyString => false
  | String d s' => Ascii.eqb d c || has_char c s'
  end.

(** A role whose [permissions] field is an array. *)
Definition permissions_array (r : Role) : Prop :=
  exists ps, permissions r = VArr ps.

(** ** Predicates used in the statements *)

(** The test of the second [find] of [authorize], as a boolean. *)
Definition grantsb (a : string) (p : Val) : bool :=
  strict_eq p (VStr a) || strict_eq p (VStr Permission.ALL).

(** Some owned scope passes the scope test of [authorize] for [t]. *)
Definition scope_test (this : Role) (t : Target) : Prop :=
  exists rt, In rt (targets this) /\ uri_starts_with t rt = true.

(** Some granted permission passes the action test of [authorize] for [a]. *)
Definition action_test (ps : list Val) (a : string) : Prop :=
  exists p, In p ps /\ grantsb a p = true.

(** The condition [if (role.authorize(permission, target))] of the loop,
    when the call returns. *)
Definition authorizes (permission target : Val) (role : Role) : bool :=
  match authorize role permission target with
  | Ok v => truthy v
  | Throw _ => false
  end.

(** Well-formed arguments of [authorizeUser]: an
    instance of [User] whose roles have an array of permissions, one of the
    six permission names, and an instance of [Target]. *)
Definition well_formed_user (user : Val) : Prop :=
  exists u, user = VUser u /\ Forall permissions_array (roles u).

Definition valid_action (permission : Val) : Prop :=
  exists a, permission = VStr a /\ is_permission a = true.

Definition well_formed_scope (target : Val) : Prop :=
  exists t, target = VTarget t.

(** [v === undefined || v === null]: the values on which a property read
    throws. *)
Definition nullish (v : Val) : bool :=
  match v with
  | VUndefined | VNull => true
  | _ => false
  end.

(** The target [new Target(...s.split('/'))] that the constructor of [Role]
    builds from a string [s]. *)
Definition path_target (s : string) : Target :=
  mkTarget (split "/" s) ("target://" ++ s).

(** The value of the parameter [permissions=[]] for a given argument. *)
Definition permissions_or_default (permissions : Val) : Val :=
  match permissions with
  | VUndefined => VArr []
  | _ => permissions
  end.

(** The forms of the argument [target] that the constructor of [Role]
    accepts. *)
Inductive accepted_target : Val -> list Target -> Prop :=
| accepted_path (s : string) :
    s <> "" -> accepted_target (VStr s) [path_target s]
| accepted_instance (t : Target) :
    accepted_target (VTarget t) [t]
| accepted_paths (paths : list string) :
    accepted_target (VArr (map VStr paths)) (map path_target paths)
| accepted_instances (ts : list Target) :
    accepted_target (VArr (map VTarget ts)) ts.


(** ** Example roles and targets *)

Module Jobs.
Definition job1 : Target := mkTarget ["job1"] "target://job1".
Definition job12 : Target := mkTarget ["job12"] "target://job12".
Definition job1_x : Target := mkTarget ["job1"; "x"] "target://job1/x".

(** [new Role("r", "R", undefined, new Target("job1"), ["ALL"])] *)
Definition job1_admin : Role :=
  mkRole (VStr "r") (VStr "R") VUndefined [job1] (VTarget job1)
    (VArr [VStr Permission.ALL]).

(** [new Role("r", "R", undefined, new Target("job1"), ["READ"])] *)
Definition job1_reader : Role :=
  mkRole (VStr "r") (VStr "R") VUndefined [job1] (VTarget job1)
    (VArr [VStr Permission.READ]).
End Jobs.

(** * Properties *)

(** ** The operators *)

Lemma indexOf_from_range (search s : string) (k : Z) :
  indexOf_from s search k = -1 \/ k <= indexOf_from s search k.
Proof.
  revert k. induction s as [| c s IH]; intros k; cbn [indexOf_from].
  - destruct (String.prefix search ""); [right | left]; lia.
  - destruct (String.prefix search (String c s)).
    + right; lia.
    + destruct (IH (k + 1)) as [H | H]; [left | right]; lia.
Qed.

(** [s.indexOf(search) === 0] says that [s] starts with [search]. *)
Lemma indexOf_zero_prefix (s search : string) :
  (indexOf s search =? 0) = String.prefix search s.
Proof.
  unfold indexOf. destruct s as [| c s]; cbn [indexOf_from].
  - destruct (String.prefix search ""); reflexivity.
  - destruct (String.prefix search (String c s)) eqn:E; [reflexivity |].
    destruct (indexOf_from_range search s 1) as [H | H];
      apply Z.eqb_neq; change (0 + 1) with 1; lia.
Qed.

Lemma strict_eq_VStr (p : Val) (a : string) :
  strict_eq p (VStr a) = true <-> p = VStr a.
Proof.
  destruct p; simpl; split; intros H; try discriminate.
  - apply String.eqb_eq in H. now subst.
  - injection H as ->. apply String.eqb_refl.
Qed.

Lemma is_permission_cases (a : string) :
  is_permission a = true ->
  a = Permission.CREATE \/ a = Permission.READ \/ a = Permission.UPDATE \/
  a = Permission.DELETE \/ a = Permission.SHARE \/ a = Permission.ALL.
Proof.
  unfold is_permission; simpl. rewrite !orb_true_iff, !String.eqb_eq.
  intuition discriminate.
Qed.

Lemma permission_truthy (a : string) :
  is_permission a = true -> truthy (VStr a) = true.
Proof.
  intros H. destruct (is_permission_cases a H) as [-> | [-> | [-> | [-> | [-> | ->]]]]];
    reflexivity.
Qed.

Lemma permission_passes_loosely (a : string) :
  is_permission a = true -> no_name_loosely (VStr a) = false.
Proof.
  intros H. destruct (is_permission_cases a H) as [-> | [-> | [-> | [-> | [-> | ->]]]]];
    reflexivity.
Qed.

Lemma permission_passes_strictly (a : string) :
  is_permission a = true -> no_name_strictly (VStr a) = false.
Proof.
  intros H. destruct (is_permission_cases a H) as [-> | [-> | [-> | [-> | [-> | ->]]]]];
    reflexivity.
Qed.

(** ** [authorize] on arguments that pass its validation *)

Lemma find_grants (a : string) (ps : list Val) :
  Js.find (grants (VStr a)) ps =
  Ok (match List.find (grantsb a) ps with
      | Some p => p
      | None => VUndefined
      end).
Proof.
  induction ps as [| p ps IH]; simpl; [reflexivity |].
  fold (grantsb a p). destruct (grantsb a p); [reflexivity | exact IH].
Qed.

Lemma grantsb_spec (a : string) (p : Val) :
  grantsb a p = true <-> p = VStr a \/ p = VStr Permission.ALL.
Proof.
  unfold grantsb. now rewrite orb_true_iff, !strict_eq_VStr.
Qed.

Lemma find_grantsb_none (a : string) (ps : list Val) :
  List.find (grantsb a) ps = None <->
  ~ (In (VStr a) ps \/ In (VStr Permission.ALL) ps).
Proof.
  split.
  - intros H [Hin | Hin];
      apply (find_none _ _ H) in Hin;
      assert (grantsb a (VStr a) = true /\ grantsb a (VStr Permission.ALL) = true)
        as [? ?] by (split; apply grantsb_spec; auto); congruence.
  - intros H. destruct (List.find (grantsb a) ps) as [p |] eqn:E; [| reflexivity].
    apply find_some in E as [Hin Hp]. apply grantsb_spec in Hp as [-> | ->]; tauto.
Qed.

Lemma find_uri_none (t : Target) (owned : list Target) :
  List.find (uri_starts_with t) owned = None <->
  ~ (exists s, In s owned /\ String.prefix (uri s) (uri t) = true).
Proof.
  split.
  - intros H [s [Hin Hp]]. apply (find_none _ _ H) in Hin.
    unfold uri_starts_with in Hin. rewrite indexOf_zero_prefix in Hin. congruence.
  - intros H. destruct (List.find (uri_starts_with t) owned) as [s |] eqn:E;
      [| reflexivity].
    apply find_some in E as [Hin Hp]. unfold uri_starts_with in Hp.
    rewrite indexOf_zero_prefix in Hp. exfalso. apply H. now exists s.
Qed.

(** With a permission name and a [Target], [authorize] passes the four
    validation tests and returns the value of the [&&] expression. *)
Lemma authorize_valid (this : Role) (ps : list Val) (a : string) (t : Target) :
  permissions this = VArr ps ->
  is_permission a = true ->
  authorize this (VStr a) (VTarget t) =
  Ok (match List.find (uri_starts_with t) (targets this) with
      | None => VUndefined
      | Some _ => match List.find (grantsb a) ps with
                  | Some p => p
                  | None => VUndefined
                  end
      end).
Proof.
  intros Hps Ha. unfold authorize.
  rewrite (permission_truthy a Ha), (permission_passes_loosely a Ha), Hps. simpl.
  destruct (List.find (uri_starts_with t) (targets this)); [| reflexivity].
  apply find_grants.
Qed.

(** The value [authorize] returns on such arguments is [undefined] or one of
    the two strings the second [find] looks for. *)
Lemma authorize_valid_value (this : Role) (ps : list Val) (a : string) (t : Target) :
  permissions this = VArr ps ->
  is_permission a = true ->
  exists v, authorize this (VStr a) (VTarget t) = Ok v
            /\ (v = VUndefined \/ v = VStr a \/ v = VStr Permission.ALL).
Proof.
  intros Hps Ha. rewrite (authorize_valid this ps a t Hps Ha).
  eexists; split; [reflexivity |].
  destruct (List.find (uri_starts_with t) (targets this)); [| now left].
  destruct (List.find (grantsb a) ps) as [p |] eqn:E; [| now left].
  apply find_some in E as [_ Hp]. apply grantsb_spec in Hp. tauto.
Qed.

(** ** Scope containment *)

(** C1.  The scope test of [Role.authorize] is not made at segment
    boundaries.  [Jobs.job1], [Jobs.job12] and [Jobs.job1_x] are the targets
    [new Target("job1")], [new Target("job12")] and [new Target("job1","x")],
    and [Jobs.job1_admin] is a role that owns the first with permission ALL.
    By the specification's wording the scope [job1] contains [job1/x] and
    does not contain [job12]; the test of the code,
    [target.uri.indexOf(rt.uri) === 0], succeeds for both, and the role
    authorizes READ on [job12]. *)
Theorem authorize_crosses_segment_boundary :
  Target_constructor [VStr "job1"] = Ok Jobs.job1
  /\ Target_constructor [VStr "job12"] = Ok Jobs.job12
  /\ Target_constructor [VStr "job1"; VStr "x"] = Ok Jobs.job1_x
  /\ Role_constructor (VStr "r") (VStr "R") VUndefined (VTarget Jobs.job1)
       (VArr [VStr Permission.ALL]) = Ok Jobs.job1_admin
  /\ Spec.containsOrEquals Jobs.job1 Jobs.job1_x = true
  /\ Spec.containsOrEquals Jobs.job1 Jobs.job12 = false
  /\ uri_starts_with Jobs.job1_x Jobs.job1 = true
  /\ uri_starts_with Jobs.job12 Jobs.job1 = true
  /\ authorize Jobs.job1_admin (VStr Permission.READ) (VTarget Jobs.job12)
     = Ok (VStr Permission.ALL).
Proof. repeat split. Qed.

(** The specification's containment implies the test of the code. *)
Lemma containsOrEquals_starts_with (S T : Target) :
  Spec.containsOrEquals S T = true -> uri_starts_with T S = true.
Proof.
  unfold Spec.containsOrEquals, uri_starts_with.
  rewrite indexOf_zero_prefix. intros H. now apply andb_true_iff in H.
Qed.

(** ** [Role.authorize] *)

Lemma scope_test_find (this : Role) (t : Target) :
  scope_test this t <-> List.find (uri_starts_with t) (targets this) <> None.
Proof.
  unfold scope_test. split.
  - intros [rt [Hin Hrt]] H. apply (find_none _ _ H) in Hin. congruence.
  - destruct (List.find (uri_starts_with t) (targets this)) as [rt |] eqn:E;
      [| congruence].
    intros _. exists rt. now apply find_some in E.
Qed.

Lemma action_test_find (ps : list Val) (a : string) :
  action_test ps a <-> List.find (grantsb a) ps <> None.
Proof.
  unfold action_test. split.
  - intros [p [Hin Hp]] H. apply (find_none _ _ H) in Hin. congruence.
  - destruct (List.find (grantsb a) ps) as [p |] eqn:E; [| congruence].
    intros _. exists p. now apply find_some in E.
Qed.

(** C2, counterexample.  The role [Jobs.job1_reader] owns the scope [job1]
    and is granted READ, so both conditions hold for READ on
    [job1]; [authorize] returns the string ["READ"], not [true]. *)
Lemma authorize_returns_permission_not_true :
  Role_constructor (VStr "r") (VStr "R") VUndefined (VTarget Jobs.job1)
    (VArr [VStr Permission.READ]) = Ok Jobs.job1_reader
  /\ Spec.containsOrEquals Jobs.job1 Jobs.job1 = true
  /\ In Jobs.job1 (targets Jobs.job1_reader)
  /\ In (VStr Permission.READ) [VStr Permission.READ]
  /\ permissions Jobs.job1_reader = VArr [VStr Permission.READ]
  /\ authorize Jobs.job1_reader (VStr Permission.READ) (VTarget Jobs.job1)
     = Ok (VStr Permission.READ)
  /\ authorize Jobs.job1_reader (VStr Permission.READ) (VTarget Jobs.job1)
     <> Ok (VBool true).
Proof.
  repeat split; try (now left). discriminate.
Qed.

(** C2, amended.  For a role whose permissions are an array, a permission
    name [a] and a [Target] [t], [authorize] returns a value [v] without
    throwing, and:
    - if some owned scope contains-or-equals [t] (at a segment boundary) and
      the array holds [a] or ALL, then [v] is truthy;
    - if the array holds neither [a] nor ALL, then [v] is [undefined];
    - if the address of no owned scope is a prefix of the address of [t],
      then [v] is [undefined]. *)
Theorem authorize_scope_and_action
    (this : Role) (ps : list Val) (a : string) (t : Target) :
  permissions this = VArr ps ->
  is_permission a = true ->
  exists v,
    authorize this (VStr a) (VTarget t) = Ok v
    /\ ((exists s, In s (targets this) /\ Spec.containsOrEquals s t = true)
        /\ (In (VStr a) ps \/ In (VStr Permission.ALL) ps)
        -> truthy v = true)
    /\ (~ (In (VStr a) ps \/ In (VStr Permission.ALL) ps) -> v = VUndefined)
    /\ (~ (exists s, In s (targets this) /\ String.prefix (uri s) (uri t) = true)
        -> v = VUndefined).
Proof.
  intros Hps Ha. rewrite (authorize_valid this ps a t Hps Ha).
  eexists; split; [reflexivity |]. split; [| split].
  - intros [[s [Hin Hs]] Hgr].
    destruct (List.find (uri_starts_with t) (targets this)) eqn:E.
    + destruct (List.find (grantsb a) ps) as [p |] eqn:F.
      * apply find_some in F as [_ Hp].
        apply grantsb_spec in Hp as [-> | ->];
          [now apply permission_truthy | reflexivity].
      * apply find_grantsb_none in F. tauto.
    + apply (find_none _ _ E) in Hin.
      rewrite (containsOrEquals_starts_with s t Hs) in Hin. discriminate.
  - intros Hn. apply find_grantsb_none in Hn. rewrite Hn.
    now destruct (List.find (uri_starts_with t) (targets this)).
  - intros Hn. apply find_uri_none in Hn. now rewrite Hn.
Qed.

Lemma authorize_scope_and_action_witness :
  exists v,
    authorize Jobs.job1_admin (VStr Permission.READ) (VTarget Jobs.job1_x) = Ok v
    /\ ((exists s, In s (targets Jobs.job1_admin)
                   /\ Spec.containsOrEquals s Jobs.job1_x = true)
        /\ (In (VStr Permission.READ) [VStr Permission.ALL]
            \/ In (VStr Permission.ALL) [VStr Permission.ALL])
        -> truthy v = true)
    /\ (~ (In (VStr Permission.READ) [VStr Permission.ALL]
           \/ In (VStr Permission.ALL) [VStr Permission.ALL]) -> v = VUndefined)
    /\ (~ (exists s, In s (targets Jobs.job1_admin)
                     /\ String.prefix (uri s) (uri Jobs.job1_x) = true)
        -> v = VUndefined).
Proof.
  apply (authorize_scope_and_action Jobs.job1_admin [VStr Permission.ALL]
           Permission.READ Jobs.job1_x); reflexivity.
Defined.

(** C10.  For a role whose permissions are an array, a permission name and a
    [Target], [authorize] returns no boolean.  When the scope test and the
    action test both succeed it returns the element that [find] matched in
    the permissions array, a string and a truthy value; when one of them
    fails it returns [undefined]. *)
Theorem authorize_returns_find_result
    (this : Role) (ps : list Val) (a : string) (t : Target) :
  permissions this = VArr ps ->
  is_permission a = true ->
  exists v,
    authorize this (VStr a) (VTarget t) = Ok v
    /\ (forall b, v <> VBool b)
    /\ (scope_test this t /\ action_test ps a ->
        List.find (grantsb a) ps = Some v
        /\ (exists p, v = VStr p) /\ truthy v = true)
    /\ (~ (scope_test this t /\ action_test ps a) ->
        v = VUndefined /\ truthy v = false).
Proof.
  intros Hps Ha. rewrite (authorize_valid this ps a t Hps Ha).
  destruct (List.find (uri_starts_with t) (targets this)) as [rt |] eqn:E.
  - destruct (List.find (grantsb a) ps) as [p |] eqn:F.
    + assert (Hp : grantsb a p = true) by (now apply find_some in F).
      apply grantsb_spec in Hp.
      exists p. split; [reflexivity |]. split; [| split].
      * destruct Hp as [-> | ->]; discriminate.
      * intros _. split; [reflexivity |]. split.
        -- destruct Hp as [-> | ->]; eauto.
        -- destruct Hp as [-> | ->];
             [now apply permission_truthy | reflexivity].
      * intros H. exfalso. apply H. split.
        -- apply scope_test_find. congruence.
        -- apply action_test_find. congruence.
    + exists VUndefined. split; [reflexivity |]. split; [| split].
      * discriminate.
      * intros [_ H]. apply action_test_find in H. congruence.
      * intros _. now split.
  - exists VUndefined. split; [reflexivity |]. split; [| split].
    + discriminate.
    + intros [H _]. apply scope_test_find in H. congruence.
    + intros _. now split.
Qed.

Lemma authorize_returns_find_result_witness :
  exists v,
    authorize Jobs.job1_reader (VStr Permission.READ) (VTarget Jobs.job1_x) = Ok v
    /\ (forall b, v <> VBool b)
    /\ (scope_test Jobs.job1_reader Jobs.job1_x
        /\ action_test [VStr Permission.READ] Permission.READ ->
        List.find (grantsb Permission.READ) [VStr Permission.READ] = Some v
        /\ (exists p, v = VStr p) /\ truthy v = true)
    /\ (~ (scope_test Jobs.job1_reader Jobs.job1_x
           /\ action_test [VStr Permission.READ] Permission.READ) ->
        v = VUndefined /\ truthy v = false).
Proof.
  apply (authorize_returns_find_result Jobs.job1_reader
           [VStr Permission.READ] Permission.READ Jobs.job1_x); reflexivity.
Defined.

(** ** The demonstration *)

(** The roles of [RBACDemo.run] are what the constructor returns. *)
Lemma RBACDemo_roles :
  Role_constructor (VStr "IngenAdmin") (VStr "IngenAdmin")
    (VStr "Admin role with all permissions for InGen tenant")
    (VTarget (RBACDemo.path ["InGen"])) (RBACDemo.names [Permission.ALL])
  = Ok RBACDemo.ingenAdmin
  /\ Target_constructor [VStr "InGen"; VStr "Engineering"; VStr "job789"]
     = Ok (RBACDemo.path ["InGen"; "Engineering"; "job789"])
  /\ User_constructor (VStr "bala") (VStr "Bala") (VArr [VRole RBACDemo.ingenAdmin])
     = Ok (mkUser [RBACDemo.ingenAdmin] (VStr "bala") (VStr "Bala")).
Proof. repeat split. Qed.

(** The five answers that [RBACDemo.run] prints. *)
Lemma RBACDemo_run :
  RBACUtil.authorizeUser RBACDemo.anita (VStr Permission.READ)
    (VTarget (RBACDemo.path ["InGen"; "Engineering"; "job789"; "Interview1"]))
  = Ok (VBool true)
  /\ RBACUtil.authorizeUser RBACDemo.anita (VStr Permission.DELETE)
       (VTarget (RBACDemo.path ["InGen"; "Engineering"; "job789"; "Interview1"]))
     = Ok (VBool true)
  /\ RBACUtil.authorizeUser RBACDemo.anita (VStr Permission.CREATE)
       (VTarget (RBACDemo.path ["InGen"; "Engineering"; "job789"; "Interview2"]))
     = Ok (VBool true)
  /\ RBACUtil.authorizeUser RBACDemo.bala (VStr Permission.DELETE)
       (VTarget (RBACDemo.path ["InGen"; "HR"; "job555"; "discussion999"]))
     = Ok (VBool true)
  /\ RBACUtil.authorizeUser RBACDemo.deepak (VStr Permission.UPDATE)
       (VTarget (RBACDemo.path ["InGen"; "HR"; "job555"; "discussion999"]))
     = Ok (VBool false).
Proof. repeat split. Qed.

(** ** [RBACUtil.authorizeUser] *)

Section Loop.

Variable a : string.
Variable t : Target.
Hypothesis a_valid : is_permission a = true.

Lemma authorize_returns (role : Role) :
  permissions_array role ->
  exists v, authorize role (VStr a) (VTarget t) = Ok v.
Proof.
  intros [ps Hps].
  destruct (authorize_valid_value role ps a t Hps a_valid) as [v [Hv _]].
  now exists v.
Qed.

(** Over roles whose calls return, the loop computes the disjunction. *)
Lemma any_role_authorizes_existsb (rs : list Role) :
  Forall permissions_array rs ->
  RBACUtil.any_role_authorizes rs (VStr a) (VTarget t) =
  Ok (VBool (existsb (authorizes (VStr a) (VTarget t)) rs)).
Proof.
  induction 1 as [| role rs Hrole _ IH]; simpl; [reflexivity |].
  unfold authorizes at 1.
  destruct (authorize_returns role Hrole) as [v ->]. simpl.
  destruct (truthy v); [reflexivity | exact IH].
Qed.

(** The loop stops at the first role that authorizes: the roles after it
    are not asked. *)
Lemma any_role_authorizes_first (before after : list Role) (role : Role) :
  Forall permissions_array before ->
  existsb (authorizes (VStr a) (VTarget t)) before = false ->
  authorizes (VStr a) (VTarget t) role = true ->
  RBACUtil.any_role_authorizes (before ++ role :: after) (VStr a) (VTarget t) =
  Ok (VBool true).
Proof.
  intros Hwf Hnone Hrole.
  induction Hwf as [| r before Hr _ IH]; simpl in *.
  - unfold authorizes in Hrole.
    destruct (authorize role (VStr a) (VTarget t)) as [v | e]; [| discriminate].
    simpl. now rewrite Hrole.
  - apply orb_false_iff in Hnone as [Hr' Hnone]. unfold authorizes in Hr'.
    destruct (authorize_returns r Hr) as [v Hv]. rewrite Hv in *. simpl.
    rewrite Hr'. now apply IH.
Qed.

Lemma authorizeUser_loop (u : User) :
  RBACUtil.authorizeUser (VUser u) (VStr a) (VTarget t) =
  RBACUtil.any_role_authorizes (roles u) (VStr a) (VTarget t).
Proof.
  unfold RBACUtil.authorizeUser.
  now rewrite (permission_truthy a a_valid), (permission_passes_loosely a a_valid).
Qed.

End Loop.

(** C3.  For a permission name [a] and a [Target] [t]: with no role
    [authorizeUser] returns [false]; for a user whose roles all have an
    array of permissions it returns the disjunction, over the roles in
    stored order, of the truth values of [role.authorize(a, t)]; and it
    returns [true] at the first role that authorizes, whatever roles come
    after it. *)
Theorem authorizeUser_is_or (a : string) (t : Target) (uid uname : Val) :
  is_permission a = true ->
  RBACUtil.authorizeUser (VUser (mkUser [] uid uname)) (VStr a) (VTarget t)
  = Ok (VBool false)
  /\ (forall rs,
        Forall permissions_array rs ->
        RBACUtil.authorizeUser (VUser (mkUser rs uid uname)) (VStr a) (VTarget t)
        = Ok (VBool (existsb (authorizes (VStr a) (VTarget t)) rs)))
  /\ (forall before role after,
        Forall permissions_array before ->
        existsb (authorizes (VStr a) (VTarget t)) before = false ->
        authorizes (VStr a) (VTarget t) role = true ->
        RBACUtil.authorizeUser
          (VUser (mkUser (before ++ role :: after) uid uname)) (VStr a) (VTarget t)
        = Ok (VBool true)).
Proof.
  intros Ha. split; [| split].
  - now rewrite authorizeUser_loop.
  - intros rs Hrs. rewrite authorizeUser_loop by assumption.
    now apply any_role_authorizes_existsb.
  - intros before role after Hwf Hnone Hrole.
    rewrite authorizeUser_loop by assumption.
    now apply any_role_authorizes_first.
Qed.

(** Scenarios A and B of the specification, with the role and the user of
    [RBACDemo.run]: anita may READ and CREATE below [job789] and may not
    SHARE.  In the last call a second role follows whose [permissions] are
    [null]; the loop returns at the first role and never asks it. *)
Lemma authorizeUser_is_or_witness :
  RBACUtil.authorizeUser RBACDemo.anita (VStr Permission.READ)
    (VTarget (RBACDemo.path ["InGen"; "Engineering"; "job789"; "Interview1"]))
  = Ok (VBool true)
  /\ RBACUtil.authorizeUser RBACDemo.anita (VStr Permission.CREATE)
       (VTarget (RBACDemo.path ["InGen"; "Engineering"; "job789"; "Interview2"]))
     = Ok (VBool true)
  /\ RBACUtil.authorizeUser RBACDemo.anita (VStr Permission.SHARE)
       (VTarget (RBACDemo.path ["InGen"; "Engineering"; "job789"; "Interview2"]))
     = Ok (VBool false)
  /\ RBACUtil.authorizeUser
       (VUser (mkUser [RBACDemo.ingenEnggHM;
                       set_permissions RBACDemo.ingenAdmin VNull]
                 (VStr "anita") (VStr "Anita")))
       (VStr Permission.READ)
       (VTarget (RBACDemo.path ["InGen"; "Engineering"; "job789"; "Interview1"]))
     = Ok (VBool true).
Proof.
  assert (Hwf : Forall permissions_array [RBACDemo.ingenEnggHM])
    by (repeat constructor; eexists; reflexivity).
  split; [| split; [| split]].
  - exact (proj1 (proj2 (authorizeUser_is_or Permission.READ
             (RBACDemo.path ["InGen"; "Engineering"; "job789"; "Interview1"])
             (VStr "anita") (VStr "Anita") eq_refl)) _ Hwf).
  - exact (proj1 (proj2 (authorizeUser_is_or Permission.CREATE
             (RBACDemo.path ["InGen"; "Engineering"; "job789"; "Interview2"])
             (VStr "anita") (VStr "Anita") eq_refl)) _ Hwf).
  - exact (proj1 (proj2 (authorizeUser_is_or Permission.SHARE
             (RBACDemo.path ["InGen"; "Engineering"; "job789"; "Interview2"])
             (VStr "anita") (VStr "Anita") eq_refl)) _ Hwf).
  - exact (proj2 (proj2 (authorizeUser_is_or Permission.READ
             (RBACDemo.path ["InGen"; "Engineering"; "job789"; "Interview1"])
             (VStr "anita") (VStr "Anita") eq_refl))
             [] RBACDemo.ingenEnggHM [set_permissions RBACDemo.ingenAdmin VNull]
             (Forall_nil _) eq_refl eq_refl).
Defined.

(** C8.  On a well-formed user, a valid action and a well-formed scope
    [authorizeUser] returns a boolean and throws nothing: a denial is the
    value [false]. *)
Theorem authorizeUser_never_throws (user permission target : Val) :
  well_formed_user user ->
  valid_action permission ->
  well_formed_scope target ->
  (exists b, RBACUtil.authorizeUser user permission target = Ok (VBool b))
  /\ (forall e, RBACUtil.authorizeUser user permission target <> Throw e).
Proof.
  intros [u [-> Hu]] [a [-> Ha]] [t ->].
  rewrite (authorizeUser_loop a t Ha u).
  rewrite (any_role_authorizes_existsb a t Ha (roles u) Hu).
  split; [eexists; reflexivity | discriminate].
Qed.

(** Scenario D of the specification: deepak's only role covers another
    subtree, and the answer is the value [false]. *)
Lemma authorizeUser_never_throws_witness :
  (exists b,
      RBACUtil.authorizeUser RBACDemo.deepak (VStr Permission.UPDATE)
        (VTarget (RBACDemo.path ["InGen"; "HR"; "job555"; "discussion999"]))
      = Ok (VBool b))
  /\ (forall e,
        RBACUtil.authorizeUser RBACDemo.deepak (VStr Permission.UPDATE)
          (VTarget (RBACDemo.path ["InGen"; "HR"; "job555"; "discussion999"]))
        <> Throw e).
Proof.
  apply authorizeUser_never_throws.
  - eexists; split; [reflexivity |].
    repeat constructor. eexists; reflexivity.
  - exists Permission.UPDATE. now split.
  - eexists; reflexivity.
Defined.

(** ** [Role.addPermission] and [Role.removePermission] *)

(** A permission name has no property [permission] or [targetType], so the
    callback of [find] in [addPermission] answers [true] for every stored
    string. *)
Lemma same_permission_strings (a q : string) :
  same_permission (VStr a) (VStr q) = Ok (VBool true).
Proof. reflexivity. Qed.

(** On a role without permissions [addPermission] stores the name. *)
Lemma addPermission_first (this : Role) (a : string) :
  permissions this = VArr [] ->
  is_permission a = true ->
  addPermission this (VStr a) = Ok (set_permissions this (VArr [VStr a])).
Proof.
  intros Hps Ha. unfold addPermission.
  now rewrite (permission_truthy a Ha), (permission_passes_strictly a Ha), Hps.
Qed.

(** On a role whose first permission is a name, [addPermission] rejects every
    name as a duplicate. *)
Lemma addPermission_after_first (this : Role) (q a : string) (ps : list Val) :
  permissions this = VArr (VStr q :: ps) ->
  is_permission q = true ->
  is_permission a = true ->
  addPermission this (VStr a) = Throw (Error "permission already exists in role").
Proof.
  intros Hps Hq Ha. unfold addPermission.
  rewrite (permission_truthy a Ha), (permission_passes_strictly a Ha), Hps.
  cbn [negb Js.find bind]. rewrite same_permission_strings.
  cbn [bind]. change (truthy (VBool true)) with true. cbn iota.
  unfold bind. now rewrite (permission_truthy q Hq).
Qed.

(** C4.  [Jobs.job1_reader] is granted READ only.  Adding CREATE, which is
    not in its permissions, fails with the error of a duplicate. *)
Theorem addPermission_rejects_absent_permission :
  permissions Jobs.job1_reader = VArr [VStr Permission.READ]
  /\ ~ In (VStr Permission.CREATE) [VStr Permission.READ]
  /\ addPermission Jobs.job1_reader (VStr Permission.CREATE)
     = Throw (Error "permission already exists in role").
Proof.
  split; [reflexivity |]. split; [| reflexivity].
  intros [H | []]. discriminate.
Qed.

(** The callback of [filter] in [removePermission] returns [undefined] for
    every stored string. *)
Lemma other_permission_strings (a q : string) :
  other_permission (VStr a) (VStr q) = Ok VUndefined.
Proof. reflexivity. Qed.

Lemma filter_other_permission_strings (a : string) (names : list string) :
  Js.filter (other_permission (VStr a)) (map VStr names) = Ok [].
Proof.
  induction names as [| q names IH]; [reflexivity |].
  cbn [map Js.filter]. rewrite other_permission_strings.
  cbn [bind]. now rewrite IH.
Qed.

(** [removePermission] with a name empties an array of names. *)
Lemma removePermission_clears (this : Role) (a : string) (names : list string) :
  permissions this = VArr (map VStr names) ->
  removePermission this (VStr a) = Ok (set_permissions this (VArr [])).
Proof.
  intros Hps. unfold removePermission.
  now rewrite Hps, filter_other_permission_strings.
Qed.

(** C5.  [Jobs.job1_reader] is granted READ only.  Removing CREATE, which is
    not in its permissions, leaves the role without any permission. *)
Theorem removePermission_drops_other_permissions :
  permissions Jobs.job1_reader = VArr [VStr Permission.READ]
  /\ ~ In (VStr Permission.CREATE) [VStr Permission.READ]
  /\ removePermission Jobs.job1_reader (VStr Permission.CREATE)
     = Ok (set_permissions Jobs.job1_reader (VArr [])).
Proof.
  split; [reflexivity |]. split; [| reflexivity].
  intros [H | []]. discriminate.
Qed.

(** ** The constructor of [Role] *)

(** C6.  [new Role("r", "R", "d", [], ["READ"])] returns a role that owns no
    scope: the empty array passes [target.every(t => typeof t === 'string')]
    and is mapped to the empty array of targets. *)
Theorem Role_constructor_accepts_no_scope :
  Role_constructor (VStr "r") (VStr "R") (VStr "d") (VArr [])
    (VArr [VStr Permission.READ])
  = Ok (mkRole (VStr "r") (VStr "R") (VStr "d") [] (VArr [])
          (VArr [VStr Permission.READ]))
  /\ targets (mkRole (VStr "r") (VStr "R") (VStr "d") [] (VArr [])
                (VArr [VStr Permission.READ])) = [].
Proof. split; reflexivity. Qed.

Lemma split_not_nil (sep : ascii) (s : string) : split sep s <> [].
Proof.
  destruct s as [| c s]; simpl; [discriminate |].
  destruct (Ascii.eqb c sep); [discriminate |].
  destruct (split sep s); discriminate.
Qed.

Lemma filter_non_strings_VStr (l : list string) :
  List.filter (fun arg => negb (is_string arg)) (map VStr l) = [].
Proof. induction l as [| s l IH]; [reflexivity | exact IH]. Qed.

Lemma map_to_string_VStr (l : list string) : map to_string (map VStr l) = l.
Proof.
  induction l as [| s l IH]; [reflexivity |]. cbn [map to_string]. now rewrite IH.
Qed.

(** The constructor of [Target] on strings. *)
Lemma Target_constructor_strings (seg : string) (segs : list string) :
  Target_constructor (map VStr (seg :: segs)) =
  Ok (mkTarget (seg :: segs) ("target://" ++ join "/" (seg :: segs))).
Proof.
  unfold Target_constructor.
  rewrite filter_non_strings_VStr, map_to_string_VStr. reflexivity.
Qed.

Lemma Target_of_path_returns (s : string) :
  exists t, Target_of_path s = Ok t.
Proof.
  unfold Target_of_path. destruct (split "/" s) as [| seg segs] eqn:E.
  - now apply split_not_nil in E.
  - rewrite Target_constructor_strings. eexists; reflexivity.
Qed.

Lemma map_m_not_nil {A B : Type} (f : A -> Result B) (l : list A) (ys : list B) :
  map_m f l = Ok ys -> l <> [] -> ys <> [].
Proof.
  destruct l as [| x l]; [congruence |]. intros H _. simpl in H.
  destruct (f x); [| discriminate]. simpl in H.
  destruct (map_m f l); [| discriminate]. simpl in H.
  injection H as <-. discriminate.
Qed.

(** The constructor stores the array of permissions it is given, and an
    empty array when it is given none. *)
Lemma Role_constructor_permissions
    (roleId roleName roleDescription target perms : Val) (r : Role) :
  Role_constructor roleId roleName roleDescription target perms = Ok r ->
  (forall ps, perms = VArr ps -> permissions_array r)
  /\ (perms = VUndefined -> permissions r = VArr []).
Proof.
  unfold Role_constructor. intros H.
  destruct (truthy roleId); [| discriminate].
  destruct (truthy roleName); [| discriminate]. cbn [negb] in H.
  match type of H with
  | bind ?m _ = _ => destruct m as [ts |]; [| discriminate]
  end.
  simpl in H. injection H as <-. split.
  - intros ps ->. now exists ps.
  - now intros ->.
Qed.

(** The empty array is the only accepted [target] that gives a role without
    scopes. *)
Lemma Role_constructor_owned
    (roleId roleName roleDescription target permissions : Val) (r : Role) :
  Role_constructor roleId roleName roleDescription target permissions = Ok r ->
  target <> VArr [] ->
  targets r <> [].
Proof.
  unfold Role_constructor. intros H Hne.
  destruct (truthy roleId); [| discriminate].
  destruct (truthy roleName); [| discriminate]. cbn [negb] in H.
  destruct (truthy target); [| discriminate]. cbn [negb] in H.
  destruct target as [| | | | s | elems | | t | |]; try discriminate.
  - destruct (Target_of_path_returns s) as [t Ht]. rewrite Ht in H.
    simpl in H. injection H as <-. discriminate.
  - destruct (forallb is_string elems).
    + destruct (map_m _ elems) as [ts |] eqn:E; [| discriminate].
      simpl in H. injection H as <-. simpl.
      apply (map_m_not_nil _ _ _ E). congruence.
    + destruct (forallb instanceof_Target elems) eqn:F; [| discriminate].
      simpl in H. injection H as <-. simpl.
      destruct elems as [| e elems]; [congruence |].
      simpl in F. destruct e; discriminate.
  - simpl in H. injection H as <-. discriminate.
Qed.

(** ** The constructor of [Target] *)

(** C9.  [new Target()] throws; [new Target(...)] with an argument that is
    not a string throws; with one or more strings it returns the target
    whose [level] holds the strings as given. *)
Theorem Target_constructor_validation :
  Target_constructor [] = Throw (Error "Needs at least one argument")
  /\ (forall argStrings,
        (exists arg, In arg argStrings /\ is_string arg = false) ->
        Target_constructor argStrings = Throw (Error "All arguments must be strings"))
  /\ (forall seg segs,
        Target_constructor (map VStr (seg :: segs)) =
        Ok (mkTarget (seg :: segs) ("target://" ++ join "/" (seg :: segs)))).
Proof.
  split; [reflexivity |]. split.
  - intros argStrings [arg [Hin Harg]]. unfold Target_constructor.
    destruct argStrings as [| x rest]; [destruct Hin |].
    cbn [List.length Nat.eqb].
    assert (H : In arg (List.filter (fun arg => negb (is_string arg)) (x :: rest)))
      by (apply filter_In; split; [assumption | now rewrite Harg]).
    destruct (List.filter (fun arg => negb (is_string arg)) (x :: rest));
      [destruct H | reflexivity].
  - apply Target_constructor_strings.
Qed.

Lemma Target_constructor_validation_witness :
  Target_constructor [VStr "InGen"; VNum 789]
  = Throw (Error "All arguments must be strings")
  /\ Target_constructor [VStr "InGen"; VStr "Engineering"]
     = Ok (mkTarget ["InGen"; "Engineering"] "target://InGen/Engineering").
Proof.
  split.
  - apply (proj1 (proj2 Target_constructor_validation)).
    exists (VNum 789). split; [right; now left | reflexivity].
  - exact (proj2 (proj2 Target_constructor_validation) "InGen" ["Engineering"]).
Defined.

(** *** The address determines the segments when no segment holds a slash *)

Section SplitJoin.

Variable sep : ascii.

Lemma split_without_sep (s : string) :
  has_char sep s = false -> split sep s = [s].
Proof.
  induction s as [| c s IH]; simpl; [reflexivity |].
  intros H. apply orb_false_iff in H as [Hc Hs].
  rewrite Hc, (IH Hs). reflexivity.
Qed.

Lemma split_append (s rest : string) :
  has_char sep s = false ->
  split sep (s ++ String sep rest) = s :: split sep rest.
Proof.
  induction s as [| c s IH]; simpl.
  - intros _. now rewrite Ascii.eqb_refl.
  - intros H. apply orb_false_iff in H as [Hc Hs].
    rewrite Hc, (IH Hs). reflexivity.
Qed.

(** [s.split(sep)] undoes [join(sep)] on such segments. *)
Lemma split_join (seg : string) (segs : list string) :
  Forall (fun s => has_char sep s = false) (seg :: segs) ->
  split sep (join (String sep EmptyString) (seg :: segs)) = seg :: segs.
Proof.
  revert seg. induction segs as [| s segs IH]; intros seg H.
  - apply split_without_sep. now inversion H.
  - inversion H as [| ? ? Hseg Hrest]; subst.
    change (join (String sep "") (seg :: s :: segs))
      with (seg ++ String sep (join (String sep "") (s :: segs))).
    rewrite (split_append _ _ Hseg). now rewrite (IH s Hrest).
Qed.

End SplitJoin.

(** C7, counterexample.  [new Target("a/b")] and [new Target("a", "b")] are
    both accepted, their segment sequences differ and their addresses are
    the same. *)
Lemma Target_uri_collision :
  Target_constructor [VStr "a/b"] = Ok (mkTarget ["a/b"] "target://a/b")
  /\ Target_constructor [VStr "a"; VStr "b"] = Ok (mkTarget ["a"; "b"] "target://a/b")
  /\ level (mkTarget ["a/b"] "target://a/b") <> level (mkTarget ["a"; "b"] "target://a/b")
  /\ uri (mkTarget ["a/b"] "target://a/b") = uri (mkTarget ["a"; "b"] "target://a/b").
Proof.
  repeat split. discriminate.
Qed.

(** C7, amended.  The address of an accepted target is the scheme prefix
    followed by the segments joined with a slash, and two accepted segment
    sequences none of whose segments holds a slash get the same address only
    if they are the same sequence. *)
Theorem Target_uri_injective (segs1 segs2 : list string) (t1 t2 : Target) :
  Target_constructor (map VStr segs1) = Ok t1 ->
  Target_constructor (map VStr segs2) = Ok t2 ->
  Forall (fun s => has_char "/" s = false) segs1 ->
  Forall (fun s => has_char "/" s = false) segs2 ->
  uri t1 = "target://" ++ join "/" segs1
  /\ level t1 = segs1
  /\ (uri t1 = uri t2 -> segs1 = segs2).
Proof.
  intros H1 H2 F1 F2.
  destruct segs1 as [| x1 l1]; [discriminate |].
  destruct segs2 as [| x2 l2]; [discriminate |].
  rewrite Target_constructor_strings in H1, H2.
  injection H1 as <-. injection H2 as <-.
  split; [reflexivity |]. split; [reflexivity |].
  cbn [uri]. intros E.
  assert (J : join "/" (x1 :: l1) = join "/" (x2 :: l2))
    by (simpl in E; now injection E).
  rewrite <- (split_join "/" x1 l1 F1), <- (split_join "/" x2 l2 F2).
  now rewrite J.
Qed.

Lemma Target_uri_injective_witness :
  uri (mkTarget ["a"; "b"] "target://a/b") = "target://" ++ join "/" ["a"; "b"]
  /\ level (mkTarget ["a"; "b"] "target://a/b") = ["a"; "b"]
  /\ (uri (mkTarget ["a"; "b"] "target://a/b") = uri (mkTarget ["a"; "b"] "target://a/b")
      -> ["a"; "b"] = ["a"; "b"]).
Proof.
  apply (Target_uri_injective ["a"; "b"] ["a"; "b"]);
    try reflexivity; repeat constructor.
Defined.

(** * Further properties of the classes *)

(** ** Splitting and joining paths *)

Lemma join_cons (sep seg : string) (segs : list string) :
  segs <> [] ->
  join sep (seg :: segs) = seg ++ sep ++ join sep segs.
Proof. destruct segs; [congruence | reflexivity]. Qed.

(** [s.split(sep).join(sep)] is [s]. *)
Lemma join_split (sep : ascii) (s : string) :
  join (String sep EmptyString) (split sep s) = s.
Proof.
  induction s as [| c s IH]; [reflexivity |].
  cbn [split]. destruct (Ascii.eqb c sep) eqn:E.
  - apply Ascii.eqb_eq in E. subst c.
    rewrite join_cons by apply split_not_nil. now rewrite IH.
  - destruct (split sep s) as [| seg segs] eqn:F; [now apply split_not_nil in F |].
    destruct segs as [| seg' segs].
    + cbn in IH |- *. now rewrite IH.
    + rewrite <- IH. rewrite !join_cons by discriminate. reflexivity.
Qed.

Lemma Target_of_path_value (s : string) : Target_of_path s = Ok (path_target s).
Proof.
  unfold Target_of_path, path_target.
  destruct (split "/" s) as [| seg segs] eqn:E; [now apply split_not_nil in E |].
  rewrite Target_constructor_strings, <- E.
  now rewrite (join_split "/" s).
Qed.

Lemma map_m_paths (paths : list string) :
  map_m (fun t => Target_of_path (to_string t)) (map VStr paths)
  = Ok (map path_target paths).
Proof.
  induction paths as [| s paths IH]; [reflexivity |].
  cbn [map map_m to_string]. rewrite Target_of_path_value, IH. reflexivity.
Qed.

(** ** Arrays all of whose elements are of one kind *)

Lemma all_strings (l : list Val) :
  forallb is_string l = true <-> exists strs, l = map VStr strs.
Proof.
  split.
  - induction l as [| v l IH]; intros H.
    + now exists [].
    + cbn in H. apply andb_true_iff in H as [Hv Hl].
      destruct v; try discriminate. destruct (IH Hl) as [strs ->].
      now exists (s :: strs).
  - intros [strs ->]. induction strs as [| s strs IH]; [reflexivity | exact IH].
Qed.

Lemma all_targets (l : list Val) :
  forallb instanceof_Target l = true <-> exists ts, l = map VTarget ts.
Proof.
  split.
  - induction l as [| v l IH]; intros H.
    + now exists [].
    + cbn in H. apply andb_true_iff in H as [Hv Hl].
      destruct v; try discriminate. destruct (IH Hl) as [ts ->].
      now exists (t :: ts).
  - intros [ts ->]. induction ts as [| t ts IH]; [reflexivity | exact IH].
Qed.

Lemma targets_of_instances (ts : list Target) : targets_of (map VTarget ts) = ts.
Proof.
  induction ts as [| t ts IH]; [reflexivity |].
  cbn. f_equal. exact IH.
Qed.

Lemma roles_of_instances (rs : list Role) : roles_of (map VRole rs) = rs.
Proof.
  induction rs as [| r rs IH]; [reflexivity |].
  cbn. f_equal. exact IH.
Qed.

Lemma no_other_than_roles (l : list Val) :
  List.filter (fun r => negb (instanceof_Role r)) l = [] <->
  exists rs, l = map VRole rs.
Proof.
  split.
  - induction l as [| v l IH]; intros H.
    + now exists [].
    + cbn in H. destruct (instanceof_Role v) eqn:E; [| discriminate].
      destruct v; try discriminate. destruct (IH H) as [rs ->].
      now exists (r :: rs).
  - intros [rs ->]. induction rs as [| r rs IH]; [reflexivity | exact IH].
Qed.

(** ** The constructors of [User] and [Role] *)

(** X1.  [new User(userId, userName, roles)] returns exactly when [userId]
    is truthy and [roles] is an array whose elements are all instances of
    [Role] (the empty array included); the user then holds these roles in
    the order given.  Every other call throws. *)
Theorem User_constructor_returns_iff (userId userName roles : Val) (u : User) :
  User_constructor userId userName roles = Ok u <->
  truthy userId = true
  /\ exists rs, roles = VArr (map VRole rs) /\ u = mkUser rs userId userName.
Proof.
  unfold User_constructor. split.
  - intros H. destruct (truthy userId); [| discriminate]. split; [reflexivity |].
    cbn [negb] in H. destruct (truthy roles); [| discriminate]. cbn [negb] in H.
    destruct roles as [| | | | | elems | | | |]; try discriminate.
    destruct (List.filter (fun r => negb (instanceof_Role r)) elems) eqn:E;
      [| discriminate].
    apply no_other_than_roles in E as [rs ->].
    exists rs. split; [reflexivity |].
    cbn in H. rewrite roles_of_instances in H. now injection H as <-.
  - intros [Hid [rs [-> ->]]]. rewrite Hid. cbn [negb truthy].
    replace (List.filter (fun r => negb (instanceof_Role r)) (map VRole rs))
      with (@nil Val) by (symmetry; apply no_other_than_roles; now exists rs).
    cbn. now rewrite roles_of_instances.
Qed.

(** X2.  [new Role(roleId, roleName, roleDescription, target, permissions)]
    returns exactly when [roleId] and [roleName] are truthy and [target] is a
    non-empty string, an instance of [Target], an array of strings or an
    array of instances of [Target].  A string gives the single target whose
    segments are the string split at the slashes and whose address is
    [target://] followed by the string; an array of strings gives one such
    target per string; instances are stored as given.  The other fields hold
    the arguments, [permissions] being the empty array when the argument is
    [undefined]. *)
Theorem Role_constructor_returns_iff
    (roleId roleName roleDescription target perms : Val) (r : Role) :
  Role_constructor roleId roleName roleDescription target perms = Ok r <->
  truthy roleId = true /\ truthy roleName = true
  /\ exists ts,
       accepted_target target ts
       /\ r = mkRole roleId roleName roleDescription ts target
                (permissions_or_default perms).
Proof.
  unfold Role_constructor. fold (permissions_or_default perms). split.
  - intros H.
    destruct (truthy roleId); [| discriminate]. split; [reflexivity |].
    destruct (truthy roleName); [| discriminate]. split; [reflexivity |].
    cbn [negb] in H.
    destruct (truthy target) eqn:T; [| discriminate]. cbn [negb] in H.
    destruct target as [| | | | s | elems | | t | |]; try discriminate.
    + rewrite Target_of_path_value in H. cbn in H. injection H as <-.
      eexists; split; [| reflexivity]. constructor.
      intros ->. discriminate.
    + destruct (forallb is_string elems) eqn:E.
      * apply all_strings in E as [paths ->].
        rewrite map_m_paths in H. cbn in H. injection H as <-.
        eexists; split; [| reflexivity]. constructor.
      * destruct (forallb instanceof_Target elems) eqn:F; [| discriminate].
        apply all_targets in F as [ts ->].
        cbn in H. rewrite targets_of_instances in H. injection H as <-.
        eexists; split; [| reflexivity]. constructor.
    + cbn in H. injection H as <-.
      eexists; split; [| reflexivity]. constructor.
  - intros [Hid [Hname [ts [Hacc ->]]]]. rewrite Hid, Hname. cbn [negb].
    destruct Hacc as [s Hs | t | paths | ts].
    + assert (T : truthy (VStr s) = true).
      { cbn. destruct s; [congruence | reflexivity]. }
      rewrite T. cbn [negb]. now rewrite Target_of_path_value.
    + reflexivity.
    + cbn [truthy negb].
      replace (forallb is_string (map VStr paths)) with true
        by (symmetry; apply all_strings; now exists paths).
      now rewrite map_m_paths.
    + cbn [truthy negb]. destruct ts as [| t ts]; [reflexivity |].
      assert (S : forallb is_string (map VTarget (t :: ts)) = false)
        by reflexivity.
      assert (I : forallb instanceof_Target (map VTarget (t :: ts)) = true)
        by (apply all_targets; now exists (t :: ts)).
      now rewrite S, I, targets_of_instances.
Qed.

(** ** Prefixes of addresses *)

Lemma prefix_append (s r : string) : String.prefix s (s ++ r) = true.
Proof.
  induction s as [| c s IH]; cbn; [now destruct r |].
  destruct (ascii_dec c c); [exact IH | congruence].
Qed.

Lemma prefix_append_same (s a b : string) :
  String.prefix (s ++ a) (s ++ b) = String.prefix a b.
Proof.
  induction s as [| c s IH]; cbn; [reflexivity |].
  destruct (ascii_dec c c); [exact IH | congruence].
Qed.

Lemma prefix_trans (a b c : string) :
  String.prefix a b = true -> String.prefix b c = true -> String.prefix a c = true.
Proof.
  revert b c. induction a as [| x a IH]; intros b c Hab Hbc.
  - now destruct c.
  - destruct b as [| y b]; [discriminate |].
    destruct c as [| z c]; [discriminate |].
    cbn in *. destruct (ascii_dec x y) as [-> |]; [| discriminate].
    destruct (ascii_dec y z) as [-> |]; [| discriminate].
    now apply (IH b c).
Qed.

(** The address of a path is a prefix of the address of every path that
    continues it. *)
Lemma join_prefix (sep seg : string) (segs more : list string) :
  String.prefix (join sep (seg :: segs)) (join sep (seg :: segs ++ more)) = true.
Proof.
  revert seg. induction segs as [| s segs IH]; intros seg.
  - destruct more as [| m more]; cbn [app].
    + rewrite <- (prefix_append (join sep [seg]) ""). f_equal.
      clear. induction (join sep [seg]) as [| c x IH]; [reflexivity |].
      cbn. now rewrite <- IH.
    + rewrite (join_cons sep seg (m :: more)) by discriminate.
      apply prefix_append.
  - rewrite (join_cons sep seg (s :: segs)) by discriminate.
    change (seg :: (s :: segs) ++ more) with (seg :: s :: (segs ++ more)).
    rewrite (join_cons sep seg (s :: segs ++ more)) by discriminate.
    rewrite !prefix_append_same. apply IH.
Qed.

Lemma uri_starts_with_prefix (t rt : Target) :
  uri_starts_with t rt = String.prefix (uri rt) (uri t).
Proof. apply indexOf_zero_prefix. Qed.

(** ** What a truthy answer of [authorize] means *)

Lemma passes_loosely_permission (a : string) :
  no_name_loosely (VStr a) = false -> is_permission a = true.
Proof.
  unfold no_name_loosely, is_permission. cbn [loose_eq_name existsb].
  intros H.
  repeat (apply andb_false_iff in H as [H | H]);
    apply negb_false_iff in H; rewrite H; cbn; now rewrite ?orb_true_r.
Qed.

Lemma passes_strictly_permission (v : Val) :
  no_name_strictly v = false -> exists a, v = VStr a /\ is_permission a = true.
Proof.
  unfold no_name_strictly. intros H.
  destruct v as [| | | | a | | | | |]; try discriminate.
  exists a. split; [reflexivity |].
  unfold is_permission. cbn [strict_eq existsb] in *.
  repeat (apply andb_false_iff in H as [H | H]);
    apply negb_false_iff in H; rewrite H; cbn; now rewrite ?orb_true_r.
Qed.

Lemma authorize_truthy_intro
    (this : Role) (ps : list Val) (a : string) (t : Target) :
  permissions this = VArr ps ->
  is_permission a = true ->
  scope_test this t ->
  In (VStr a) ps \/ In (VStr Permission.ALL) ps ->
  exists v, authorize this (VStr a) (VTarget t) = Ok v /\ truthy v = true.
Proof.
  intros Hps Ha Hscope Hgr. rewrite (authorize_valid this ps a t Hps Ha).
  eexists; split; [reflexivity |].
  apply scope_test_find in Hscope.
  destruct (List.find (uri_starts_with t) (targets this)); [| congruence].
  destruct (List.find (grantsb a) ps) as [p |] eqn:F.
  - apply find_some in F as [_ Hp].
    apply grantsb_spec in Hp as [-> | ->];
      [now apply permission_truthy | reflexivity].
  - apply find_grantsb_none in F. tauto.
Qed.

Lemma authorize_truthy_elim
    (this : Role) (a : string) (t : Target) (v : Val) :
  authorize this (VStr a) (VTarget t) = Ok v ->
  truthy v = true ->
  is_permission a = true
  /\ exists ps, permissions this = VArr ps
                /\ scope_test this t
                /\ (In (VStr a) ps \/ In (VStr Permission.ALL) ps).
Proof.
  unfold authorize. change (truthy (VTarget t)) with true. cbn [negb].
  intros H Hv.
  destruct (truthy (VStr a)); [| discriminate]. cbn [negb] in H.
  destruct (no_name_loosely (VStr a)) eqn:L; [discriminate |].
  split; [now apply passes_loosely_permission |].
  destruct (List.find (uri_starts_with t) (targets this)) as [rt |] eqn:E.
  - destruct (permissions this) as [| | | | | ps | | | |]; try discriminate.
    exists ps. split; [reflexivity |]. split.
    + apply scope_test_find. congruence.
    + rewrite find_grants in H. injection H as <-.
      destruct (List.find (grantsb a) ps) as [p |] eqn:F; [| discriminate].
      apply find_some in F as [Hin Hp].
      apply grantsb_spec in Hp as [-> | ->]; tauto.
  - injection H as <-. discriminate.
Qed.

(** ** Coverage *)

(** X3.  A role that owns the target of a path and holds the permission
    asked for, or ALL, authorizes it on the target of every path that
    continues the owned one: a scope covers the nodes below it. *)
Theorem authorize_covers_descendants
    (this : Role) (ps : list Val) (a seg : string) (segs more : list string)
    (s t : Target) :
  Target_constructor (map VStr (seg :: segs)) = Ok s ->
  Target_constructor (map VStr (seg :: segs ++ more)) = Ok t ->
  In s (targets this) ->
  permissions this = VArr ps ->
  is_permission a = true ->
  In (VStr a) ps \/ In (VStr Permission.ALL) ps ->
  exists v, authorize this (VStr a) (VTarget t) = Ok v /\ truthy v = true.
Proof.
  intros Hs Ht Hin Hps Ha Hgr.
  rewrite Target_constructor_strings in Hs, Ht.
  injection Hs as <-. injection Ht as <-.
  apply (authorize_truthy_intro this ps a _ Hps Ha); [| assumption].
  eexists; split; [eassumption |].
  rewrite uri_starts_with_prefix.
  change (String.prefix ("target://" ++ join "/" (seg :: segs))
            ("target://" ++ join "/" (seg :: segs ++ more)) = true).
  rewrite prefix_append_same. apply join_prefix.
Qed.

Lemma authorize_covers_descendants_witness :
  exists v,
    authorize RBACDemo.ingenEnggHM (VStr Permission.READ)
      (VTarget (RBACDemo.path ["InGen"; "Engineering"; "job789"; "Interview1"]))
    = Ok v /\ truthy v = true.
Proof.
  apply (authorize_covers_descendants RBACDemo.ingenEnggHM
           (map VStr [Permission.READ; Permission.CREATE; Permission.UPDATE;
                      Permission.DELETE])
           Permission.READ "InGen" ["Engineering"; "job789"] ["Interview1"]
           (RBACDemo.path ["InGen"; "Engineering"; "job789"]));
    try reflexivity; [now left | left; now left].
Defined.

(** X4.  An authorization is inherited: when [authorize] gives a truthy
    answer on a target, it gives the same answer on every target whose
    address starts with the address of the first. *)
Theorem authorize_inherited
    (this : Role) (a : string) (t t' : Target) (v : Val) :
  authorize this (VStr a) (VTarget t) = Ok v ->
  truthy v = true ->
  String.prefix (uri t) (uri t') = true ->
  authorize this (VStr a) (VTarget t') = Ok v.
Proof.
  intros H Hv Hpre.
  destruct (authorize_truthy_elim this a t v H Hv)
    as [Ha [ps [Hps [[rt [Hin Hrt]] _]]]].
  rewrite (authorize_valid this ps a t Hps Ha) in H.
  rewrite (authorize_valid this ps a t' Hps Ha).
  destruct (List.find (uri_starts_with t) (targets this));
    [| injection H as <-; discriminate].
  destruct (List.find (uri_starts_with t') (targets this)) eqn:E; [exact H |].
  apply (find_none _ _ E) in Hin.
  rewrite uri_starts_with_prefix in Hin, Hrt.
  rewrite (prefix_trans _ _ _ Hrt Hpre) in Hin. discriminate.
Qed.

Lemma authorize_inherited_witness :
  authorize Jobs.job1_reader (VStr Permission.READ) (VTarget Jobs.job1_x)
  = Ok (VStr Permission.READ).
Proof.
  apply (authorize_inherited Jobs.job1_reader Permission.READ Jobs.job1);
    reflexivity.
Defined.

(** X5.  ALL stands for every permission: a role that authorizes ALL on a
    target authorizes each of the six permissions on it. *)
Theorem authorize_ALL_authorizes_each
    (this : Role) (t : Target) (v : Val) (a : string) :
  authorize this (VStr Permission.ALL) (VTarget t) = Ok v ->
  truthy v = true ->
  is_permission a = true ->
  exists v', authorize this (VStr a) (VTarget t) = Ok v' /\ truthy v' = true.
Proof.
  intros H Hv Ha.
  destruct (authorize_truthy_elim this _ t v H Hv) as [_ [ps [Hps [Hscope Hgr]]]].
  apply (authorize_truthy_intro this ps a t Hps Ha Hscope). tauto.
Qed.

Lemma authorize_ALL_authorizes_each_witness :
  exists v',
    authorize Jobs.job1_admin (VStr Permission.SHARE) (VTarget Jobs.job1_x) = Ok v'
    /\ truthy v' = true.
Proof.
  apply (authorize_ALL_authorizes_each Jobs.job1_admin Jobs.job1_x
           (VStr Permission.ALL)); reflexivity.
Defined.

(** X6.  A role without targets authorizes nothing, whatever its
    [permissions] field holds, and so does a role whose permissions are the
    empty array: on a permission name and a [Target], [authorize] returns
    [undefined]. *)
Theorem authorize_nothing_owned_or_granted
    (this : Role) (a : string) (t : Target) :
  is_permission a = true ->
  targets this = [] \/ permissions this = VArr [] ->
  authorize this (VStr a) (VTarget t) = Ok VUndefined.
Proof.
  intros Ha [H | H].
  - unfold authorize.
    rewrite (permission_truthy a Ha), (permission_passes_loosely a Ha), H.
    reflexivity.
  - rewrite (authorize_valid this [] a t H Ha).
    now destruct (List.find (uri_starts_with t) (targets this)).
Qed.

Lemma authorize_nothing_owned_or_granted_witness :
  authorize (mkRole (VStr "r") (VStr "R") (VStr "d") [] (VArr []) VNull)
    (VStr Permission.READ) (VTarget Jobs.job1) = Ok VUndefined.
Proof.
  apply authorize_nothing_owned_or_granted; [reflexivity | now left].
Defined.

(** ** Validation of the arguments *)

(** X7.  [authorize] throws an [Error] and answers nothing when [target] is
    not an instance of [Target], and when [permission] is a string other
    than the six permission names (the empty string included). *)
Theorem authorize_rejects_invalid_arguments
    (this : Role) (permission target : Val) :
  (forall t, target <> VTarget t)
  \/ (exists s, permission = VStr s /\ is_permission s = false) ->
  exists msg, authorize this permission target = Throw (Error msg).
Proof.
  intros [H | [s [-> Hs]]]; unfold authorize.
  - destruct (truthy target); cbn [negb]; [| eexists; reflexivity].
    destruct target; try (eexists; reflexivity). now destruct (H t).
  - destruct (truthy target); cbn [negb]; [| eexists; reflexivity].
    destruct target; try (eexists; reflexivity).
    destruct (truthy (VStr s)); cbn [negb]; [| eexists; reflexivity].
    destruct (no_name_loosely (VStr s)) eqn:L; [eexists; reflexivity |].
    apply passes_loosely_permission in L. congruence.
Qed.

Lemma authorize_rejects_invalid_arguments_witness :
  exists msg,
    authorize Jobs.job1_admin (VStr "WRITE") (VTarget Jobs.job1) = Throw (Error msg).
Proof.
  apply authorize_rejects_invalid_arguments.
  right. exists "WRITE". now split.
Defined.

Lemma any_role_authorizes_boolean (rs : list Role) (permission target v : Val) :
  RBACUtil.any_role_authorizes rs permission target = Ok v ->
  exists b, v = VBool b.
Proof.
  induction rs as [| role rs IH]; cbn.
  - intros H. injection H as <-. now exists false.
  - destruct (authorize role permission target) as [x |]; [| discriminate].
    cbn. destruct (truthy x); [| exact IH].
    intros H. injection H as <-. now exists true.
Qed.

(** X8.  Whatever its arguments, when [authorizeUser] returns, it returns a
    boolean, its [user] is an instance of [User], its [target] an instance of
    [Target], and its [permission], if a string, one of the six names. *)
Theorem authorizeUser_returns_boolean (user permission target v : Val) :
  RBACUtil.authorizeUser user permission target = Ok v ->
  (exists b, v = VBool b)
  /\ (exists u, user = VUser u)
  /\ (exists t, target = VTarget t)
  /\ (forall s, permission = VStr s -> is_permission s = true).
Proof.
  unfold RBACUtil.authorizeUser. intros H.
  destruct user as [| | | | | | | | | u]; try discriminate.
  destruct (negb (truthy target) || negb (instanceof_Target target)) eqn:T;
    [discriminate |].
  destruct (negb (truthy permission) || no_name_loosely permission) eqn:P;
    [discriminate |].
  apply orb_false_iff in T as [_ T]. apply orb_false_iff in P as [_ P].
  split; [now apply any_role_authorizes_boolean in H |].
  split; [now exists u |]. split.
  - destruct target; try discriminate. now eexists.
  - intros s ->. now apply passes_loosely_permission.
Qed.

Lemma authorizeUser_returns_boolean_witness :
  (exists b, VBool true = VBool b)
  /\ (exists u, RBACDemo.bala = VUser u)
  /\ (exists t,
        VTarget (RBACDemo.path ["InGen"; "HR"; "job555"; "discussion999"])
        = VTarget t)
  /\ (forall s, VStr Permission.DELETE = VStr s -> is_permission s = true).
Proof.
  apply (authorizeUser_returns_boolean RBACDemo.bala (VStr Permission.DELETE)
           (VTarget (RBACDemo.path ["InGen"; "HR"; "job555"; "discussion999"]))).
  reflexivity.
Defined.



(** ** The decision of [authorizeUser] *)




Lemma existsb_Permutation {A : Type} (f : A -> bool) (l l' : list A) :
  Permutation l l' -> existsb f l = existsb f l'.
Proof.
  induction 1 as [| x l l' _ IH | x y l | l l' l'' _ IH1 _ IH2]; cbn.
  - reflexivity.
  - now rewrite IH.
  - now destruct (f x), (f y).
  - congruence.
Qed.

(** X11.  For users whose roles all have an array of permissions, the answer
    of [authorizeUser] does not depend on the order of the roles. *)
Theorem authorizeUser_order_irrelevant
    (rs rs' : list Role) (uid uname : Val) (a : string) (t : Target) :
  Permutation rs rs' ->
  Forall permissions_array rs ->
  is_permission a = true ->
  RBACUtil.authorizeUser (VUser (mkUser rs uid uname)) (VStr a) (VTarget t)
  = RBACUtil.authorizeUser (VUser (mkUser rs' uid uname)) (VStr a) (VTarget t).
Proof.
  intros Hperm Hwf Ha.
  assert (Hwf' : Forall permissions_array rs').
  { apply Forall_forall. intros r Hr. rewrite Forall_forall in Hwf.
    apply Hwf. now apply (Permutation_in r (Permutation_sym Hperm)). }
  rewrite !(authorizeUser_loop a t Ha). cbn [roles].
  rewrite (any_role_authorizes_existsb a t Ha rs Hwf).
  rewrite (any_role_authorizes_existsb a t Ha rs' Hwf').
  now rewrite (existsb_Permutation _ rs rs' Hperm).
Qed.

Lemma authorizeUser_order_irrelevant_witness :
  RBACUtil.authorizeUser
    (VUser (mkUser [RBACDemo.ingenInterviewer1; RBACDemo.ingenAdmin]
              (VStr "esha") (VStr "Esha")))
    (VStr Permission.DELETE) (VTarget (RBACDemo.path ["InGen"; "HR"]))
  = RBACUtil.authorizeUser
      (VUser (mkUser [RBACDemo.ingenAdmin; RBACDemo.ingenInterviewer1]
                (VStr "esha") (VStr "Esha")))
      (VStr Permission.DELETE) (VTarget (RBACDemo.path ["InGen"; "HR"])).
Proof.
  apply authorizeUser_order_irrelevant; [apply perm_swap | | reflexivity].
  repeat constructor; eexists; reflexivity.
Defined.

(** ** Changing the permissions of a role *)

(** X12.  When [addPermission] returns, its argument is one of the six
    permission names, the role held an array of permissions, and the role
    after the call differs from the role before only in that the name is
    appended to the array.  A value that is not exactly such a string (an
    array holding a name, for one) is never stored. *)
Theorem addPermission_returns_only (this r : Role) (permission : Val) :
  addPermission this permission = Ok r ->
  exists a ps,
    permission = VStr a /\ is_permission a = true
    /\ permissions this = VArr ps
    /\ r = set_permissions this (VArr (ps ++ [VStr a])).
Proof.
  unfold addPermission. intros H.
  destruct (truthy permission); [| discriminate]. cbn [negb] in H.
  destruct (no_name_strictly permission) eqn:S; [discriminate |].
  apply passes_strictly_permission in S as [a [-> Ha]].
  destruct (permissions this) as [| | | | | ps | | | |]; try discriminate.
  destruct (Js.find (same_permission (VStr a)) ps) as [found |];
    [| discriminate].
  cbn [bind] in H. destruct (truthy found); [discriminate |].
  injection H as <-. now exists a, ps.
Qed.

Lemma addPermission_returns_only_witness :
  exists a ps,
    VStr Permission.SHARE = VStr a /\ is_permission a = true
    /\ permissions (set_permissions Jobs.job1_reader (VArr [])) = VArr ps
    /\ set_permissions Jobs.job1_reader (VArr [VStr Permission.SHARE])
       = set_permissions (set_permissions Jobs.job1_reader (VArr []))
           (VArr (ps ++ [VStr a])).
Proof.
  apply (addPermission_returns_only
           (set_permissions Jobs.job1_reader (VArr []))
           (set_permissions Jobs.job1_reader (VArr [VStr Permission.SHARE]))
           (VStr Permission.SHARE)).
  reflexivity.
Defined.

(** X13.  Starting from a role without permissions, [addPermission] stores
    the first permission name, and then rejects every permission name as a
    duplicate, the names not yet stored included: it never brings a role to
    hold two permissions. *)
Theorem addPermission_only_once (this : Role) (a b : string) :
  permissions this = VArr [] ->
  is_permission a = true ->
  is_permission b = true ->
  addPermission this (VStr a) = Ok (set_permissions this (VArr [VStr a]))
  /\ addPermission (set_permissions this (VArr [VStr a])) (VStr b)
     = Throw (Error "permission already exists in role").
Proof.
  intros Hps Ha Hb. split.
  - now apply addPermission_first.
  - now apply (addPermission_after_first _ a b []).
Qed.

Lemma addPermission_only_once_witness :
  addPermission (set_permissions Jobs.job1_reader (VArr [])) (VStr Permission.READ)
  = Ok (set_permissions (set_permissions Jobs.job1_reader (VArr []))
          (VArr [VStr Permission.READ]))
  /\ addPermission
       (set_permissions (set_permissions Jobs.job1_reader (VArr []))
          (VArr [VStr Permission.READ]))
       (VStr Permission.UPDATE)
     = Throw (Error "permission already exists in role").
Proof.
  apply addPermission_only_once; reflexivity.
Defined.

Lemma other_permission_value (permission p v : Val) :
  other_permission permission p = Ok v -> v = VUndefined.
Proof.
  unfold other_permission. intros H.
  destruct (get_prop p "permission"); [| discriminate].
  destruct (get_prop permission "permission"); [| discriminate].
  cbn [bind] in H.
  match type of H with
  | bind ?m _ = _ => destruct m; [| discriminate]
  end.
  cbn [bind] in H. now injection H as <-.
Qed.

Lemma filter_other_permission_keeps_nothing
    (permission : Val) (ps kept : list Val) :
  Js.filter (other_permission permission) ps = Ok kept -> kept = [].
Proof.
  revert kept. induction ps as [| p ps IH]; intros kept H; cbn in H.
  - now injection H as <-.
  - destruct (other_permission permission p) as [v |] eqn:E; [| discriminate].
    apply other_permission_value in E. subst v. cbn [bind truthy] in H.
    destruct (Js.filter (other_permission permission) ps) as [k |];
      [| discriminate].
    cbn [bind] in H. injection H as <-. now apply IH.
Qed.

(** X14.  When [removePermission] returns, the role is left with the empty
    array of permissions and is otherwise unchanged, whatever permission was
    to be removed and whatever the array held. *)
Theorem removePermission_returns_empty (this r : Role) (permission : Val) :
  removePermission this permission = Ok r ->
  r = set_permissions this (VArr []).
Proof.
  unfold removePermission. intros H.
  destruct (permissions this) as [| | | | | ps | | | |]; try discriminate.
  destruct (Js.filter (other_permission permission) ps) as [kept |] eqn:E;
    [| discriminate].
  apply filter_other_permission_keeps_nothing in E. subst kept.
  cbn [bind] in H. now injection H as <-.
Qed.

Lemma removePermission_returns_empty_witness :
  set_permissions RBACDemo.ingenEnggHM (VArr [])
  = set_permissions RBACDemo.ingenEnggHM (VArr []).
Proof.
  apply (removePermission_returns_empty RBACDemo.ingenEnggHM
           (set_permissions RBACDemo.ingenEnggHM (VArr []))
           (VStr Permission.DELETE)).
  reflexivity.
Defined.

Lemma get_prop_returns (v : Val) (name : string) :
  nullish v = false -> exists x, get_prop v name = Ok x.
Proof.
  destruct v; cbn; intros H; try discriminate; eexists; reflexivity.
Qed.

Lemma get_prop_throws (v : Val) (name : string) :
  nullish v = true -> exists what, get_prop v name = Throw (TypeError what).
Proof.
  destruct v; cbn; intros H; try discriminate; eexists; reflexivity.
Qed.

Lemma other_permission_returns (permission p : Val) :
  nullish permission = false -> nullish p = false ->
  other_permission permission p = Ok VUndefined.
Proof.
  intros Hperm Hp. unfold other_permission.
  destruct (get_prop_returns p "permission" Hp) as [a ->].
  destruct (get_prop_returns permission "permission" Hperm) as [b ->].
  destruct (get_prop_returns p "targetType" Hp) as [c ->].
  destruct (get_prop_returns permission "targetType" Hperm) as [d ->].
  cbn [bind]. now destruct (negb (strict_eq a b)).
Qed.

Lemma other_permission_throws (permission p : Val) :
  nullish permission = true \/ nullish p = true ->
  exists what, other_permission permission p = Throw (TypeError what).
Proof.
  intros H. unfold other_permission.
  destruct (nullish p) eqn:Hp.
  - destruct (get_prop_throws p "permission" Hp) as [what ->]. now exists what.
  - destruct H as [H | H]; [| discriminate].
    destruct (get_prop_returns p "permission" Hp) as [a ->].
    destruct (get_prop_throws permission "permission" H) as [what ->].
    now exists what.
Qed.

Lemma filter_other_permission_throws (permission : Val) (ps : list Val) (e : Exn) :
  Js.filter (other_permission permission) ps = Throw e ->
  exists what, e = TypeError what.
Proof.
  induction ps as [| p ps IH]; cbn; [discriminate |].
  destruct (other_permission permission p) as [v |] eqn:E.
  - cbn [bind].
    destruct (Js.filter (other_permission permission) ps) as [k |];
      [discriminate |].
    cbn [bind]. intros H. injection H as <-. now apply IH.
  - cbn [bind]. intros H. injection H as <-.
    unfold other_permission in E.
    destruct p; cbn in E; try (injection E as <-; now eexists);
      destruct permission; cbn in E;
      try (injection E as <-; now eexists);
      repeat match type of E with
             | context [if ?c then _ else _] => destruct c; cbn in E
             end; discriminate.
Qed.

(** X15.  On a role with an array of permissions, [removePermission] returns
    when the array is empty, and when neither its argument nor any element of
    the array is [undefined] or [null]; in every other case a property is
    read on [undefined] or [null] and the call throws a [TypeError]. *)
Theorem removePermission_returns_or_throws
    (this : Role) (ps : list Val) (permission : Val) :
  permissions this = VArr ps ->
  (ps = [] \/ (nullish permission = false /\ existsb nullish ps = false) ->
   removePermission this permission = Ok (set_permissions this (VArr [])))
  /\ (ps <> [] /\ (nullish permission = true \/ existsb nullish ps = true) ->
      exists what, removePermission this permission = Throw (TypeError what)).
Proof.
  intros Hps. unfold removePermission. rewrite Hps. split.
  - intros [-> | [Hperm Hall]]; [reflexivity |].
    assert (E : Js.filter (other_permission permission) ps = Ok []).
    { clear Hps. induction ps as [| p ps IH]; [reflexivity |].
      cbn in Hall. apply orb_false_iff in Hall as [Hp Hall].
      cbn [Js.filter]. rewrite (other_permission_returns _ _ Hperm Hp).
      cbn [bind]. rewrite (IH Hall). reflexivity. }
    now rewrite E.
  - intros [Hne Hbad].
    destruct (Js.filter (other_permission permission) ps) as [kept | e] eqn:E.
    + exfalso. clear Hps. revert kept E.
      induction ps as [| p ps IH]; [congruence |]. intros kept E.
      cbn [Js.filter] in E.
      destruct (other_permission permission p) as [v |] eqn:F; [| discriminate].
      cbn [bind] in E.
      destruct (Js.filter (other_permission permission) ps) as [k |] eqn:G;
        [| discriminate].
      assert (Hp : nullish permission = false /\ nullish p = false).
      { destruct (nullish permission) eqn:A.
        - destruct (other_permission_throws permission p (or_introl A)) as [w W].
          congruence.
        - destruct (nullish p) eqn:B; [| now split].
          destruct (other_permission_throws permission p (or_intror B)) as [w W].
          congruence. }
      destruct Hp as [A B]. destruct Hbad as [Hbad | Hbad]; [congruence |].
      cbn in Hbad. rewrite B in Hbad. cbn in Hbad.
      destruct ps as [| q ps]; [discriminate |].
      apply (IH ltac:(discriminate) (or_intror Hbad) k eq_refl).
    + cbn [bind]. destruct (filter_other_permission_throws _ _ _ E) as [what ->].
      now exists what.
Qed.

Lemma removePermission_returns_or_throws_witness :
  ([VStr Permission.READ; VNull] = []
   \/ (nullish (VStr Permission.READ) = false
       /\ existsb nullish [VStr Permission.READ; VNull] = false) ->
   removePermission
     (set_permissions Jobs.job1_reader (VArr [VStr Permission.READ; VNull]))
     (VStr Permission.READ)
   = Ok (set_permissions
           (set_permissions Jobs.job1_reader (VArr [VStr Permission.READ; VNull]))
           (VArr [])))
  /\ ([VStr Permission.READ; VNull] <> []
      /\ (nullish (VStr Permission.READ) = true
          \/ existsb nullish [VStr Permission.READ; VNull] = true) ->
      exists what,
        removePermission
          (set_permissions Jobs.job1_reader (VArr [VStr Permission.READ; VNull]))
          (VStr Permission.READ)
        = Throw (TypeError what)).
Proof.
  apply removePermission_returns_or_throws. reflexivity.
Defined.

(** X16.  After a call of [removePermission] that returns, the role
    authorizes no permission on any target, and [addPermission] stores any
    permission name in it. *)
Theorem removePermission_revokes_all
    (this r : Role) (permission : Val) (a : string) (t : Target) :
  removePermission this permission = Ok r ->
  is_permission a = true ->
  authorize r (VStr a) (VTarget t) = Ok VUndefined
  /\ addPermission r (VStr a) = Ok (set_permissions this (VArr [VStr a])).
Proof.
  intros H Ha.
  assert (E : r = set_permissions this (VArr [])).
  { unfold removePermission in H.
    destruct (permissions this) as [| | | | | ps | | | |]; try discriminate.
    destruct (Js.filter (other_permission permission) ps) as [kept |] eqn:F;
      [| discriminate].
    apply filter_other_permission_keeps_nothing in F. subst kept.
    cbn [bind] in H. now injection H as <-. }
  subst r. split.
  - rewrite (authorize_valid (set_permissions this (VArr [])) [] a t eq_refl Ha).
    now destruct (List.find (uri_starts_with t) _).
  - now rewrite (addPermission_first (set_permissions this (VArr [])) a eq_refl Ha).
Qed.

Lemma removePermission_revokes_all_witness :
  authorize (set_permissions RBACDemo.ingenAdmin (VArr []))
    (VStr Permission.READ) (VTarget (RBACDemo.path ["InGen"])) = Ok VUndefined
  /\ addPermission (set_permissions RBACDemo.ingenAdmin (VArr []))
       (VStr Permission.READ)
     = Ok (set_permissions RBACDemo.ingenAdmin (VArr [VStr Permission.READ])).
Proof.
  apply (removePermission_revokes_all RBACDemo.ingenAdmin
           (set_permissions RBACDemo.ingenAdmin (VArr []))
           (VStr Permission.ALL) Permission.READ (RBACDemo.path ["InGen"]));
    reflexivity.
Defined.

(** ** Paths and segments *)

Lemma no_other_than_strings (l : list Val) :
  List.filter (fun arg => negb (is_string arg)) l = [] ->
  exists strs, l = map VStr strs.
Proof.
  induction l as [| v l IH]; intros H.
  - now exists [].
  - cbn in H. destruct (is_string v) eqn:E; [| discriminate].
    destruct v; try discriminate. destruct (IH H) as [strs ->].
    now exists (s :: strs).
Qed.

(** What the constructor of [Target] returns. *)
Lemma Target_constructor_inv (argStrings : list Val) (t : Target) :
  Target_constructor argStrings = Ok t ->
  exists seg segs,
    argStrings = map VStr (seg :: segs)
    /\ t = mkTarget (seg :: segs) ("target://" ++ join "/" (seg :: segs)).
Proof.
  intros H. assert (H' := H). unfold Target_constructor in H'.
  destruct argStrings as [| x rest]; [discriminate |].
  cbn [List.length Nat.eqb] in H'.
  destruct (List.filter (fun arg => negb (is_string arg)) (x :: rest)) eqn:E;
    [| discriminate].
  apply no_other_than_strings in E as [strs E].
  destruct strs as [| seg segs]; [discriminate |].
  exists seg, segs. split; [exact E |].
  rewrite E, Target_constructor_strings in H. now injection H as <-.
Qed.

(** X17.  [new Target("")] is accepted and its address is the bare scheme
    prefix [target://].  A role that owns it (as the role constructed from
    the array [[""]] does) passes the scope test for every target the
    constructor of [Target] returns, and authorizes on it each permission it
    holds. *)
Theorem empty_segment_covers_every_target
    (this : Role) (ps : list Val) (a : string) (argStrings : list Val) (t : Target) :
  Target_constructor argStrings = Ok t ->
  In (path_target "") (targets this) ->
  permissions this = VArr ps ->
  is_permission a = true ->
  In (VStr a) ps \/ In (VStr Permission.ALL) ps ->
  Target_constructor [VStr ""] = Ok (path_target "")
  /\ scope_test this t
  /\ exists v, authorize this (VStr a) (VTarget t) = Ok v /\ truthy v = true.
Proof.
  intros Ht Hin Hps Ha Hgr. split; [reflexivity |].
  assert (Hscope : scope_test this t).
  { exists (path_target ""). split; [assumption |].
    destruct (Target_constructor_inv _ _ Ht) as [seg [segs [_ ->]]].
    rewrite uri_starts_with_prefix.
    change (String.prefix ("target://" ++ "")
              ("target://" ++ join "/" (seg :: segs)) = true).
    rewrite prefix_append_same. now destruct (join "/" (seg :: segs)). }
  split; [assumption |].
  now apply (authorize_truthy_intro this ps a t).
Qed.

Lemma empty_segment_covers_every_target_witness :
  Target_constructor [VStr ""] = Ok (path_target "")
  /\ scope_test
       (mkRole (VStr "r") (VStr "R") VUndefined [path_target ""]
          (VArr [VStr ""]) (VArr [VStr Permission.READ]))
       (RBACDemo.path ["InGen"; "HR"])
  /\ exists v,
       authorize
         (mkRole (VStr "r") (VStr "R") VUndefined [path_target ""]
            (VArr [VStr ""]) (VArr [VStr Permission.READ]))
         (VStr Permission.READ) (VTarget (RBACDemo.path ["InGen"; "HR"])) = Ok v
       /\ truthy v = true.
Proof.
  apply (empty_segment_covers_every_target
           (mkRole (VStr "r") (VStr "R") VUndefined [path_target ""]
              (VArr [VStr ""]) (VArr [VStr Permission.READ]))
           [VStr Permission.READ] Permission.READ
           [VStr "InGen"; VStr "HR"]);
    try reflexivity; [now left | left; now left].
Defined.

(** X18.  A path string and its segments name the same target: when no
    segment holds a slash and the joined path is not empty, the role
    constructed from the string [seg1/seg2/...] and the role constructed from
    [new Target(seg1, seg2, ...)] own the same single target. *)
Theorem Role_constructor_path_is_segments
    (roleId roleName roleDescription perms : Val)
    (seg : string) (segs : list string) (t : Target) :
  truthy roleId = true ->
  truthy roleName = true ->
  Forall (fun s => has_char "/" s = false) (seg :: segs) ->
  join "/" (seg :: segs) <> "" ->
  Target_constructor (map VStr (seg :: segs)) = Ok t ->
  exists r r',
    Role_constructor roleId roleName roleDescription
      (VStr (join "/" (seg :: segs))) perms = Ok r
    /\ Role_constructor roleId roleName roleDescription (VTarget t) perms = Ok r'
    /\ targets r = [t] /\ targets r' = [t].
Proof.
  intros Hid Hname Hsegs Hne Ht.
  rewrite Target_constructor_strings in Ht. injection Ht as <-.
  unfold Role_constructor. rewrite Hid, Hname. cbn [negb].
  assert (T : truthy (VStr (join "/" (seg :: segs))) = true).
  { cbn [truthy]. destruct (join "/" (seg :: segs)); [congruence | reflexivity]. }
  rewrite T. cbn [negb truthy]. rewrite Target_of_path_value.
  unfold path_target. rewrite (split_join "/" seg segs Hsegs).
  do 2 eexists. repeat split; reflexivity.
Qed.

Lemma Role_constructor_path_is_segments_witness :
  exists r r',
    Role_constructor (VStr "r") (VStr "R") VUndefined
      (VStr (join "/" ["InGen"; "HR"])) VUndefined = Ok r
    /\ Role_constructor (VStr "r") (VStr "R") VUndefined
         (VTarget (RBACDemo.path ["InGen"; "HR"])) VUndefined = Ok r'
    /\ targets r = [RBACDemo.path ["InGen"; "HR"]]
    /\ targets r' = [RBACDemo.path ["InGen"; "HR"]].
Proof.
  apply Role_constructor_path_is_segments;
    try reflexivity; [repeat constructor | discriminate].
Defined.

(** ** From the constructors to a decision *)

Lemma User_constructor_roles (userId userName : Val) (rs : list Role) (u : User) :
  User_constructor userId userName (VArr (map VRole rs)) = Ok u -> roles u = rs.
Proof.
  unfold User_constructor. intros H.
  destruct (truthy userId); [| discriminate]. cbn [negb truthy] in H.
  destruct (Nat.ltb 0 _); [discriminate |].
  injection H as <-. cbn [roles]. apply roles_of_instances.
Qed.

(** X19.  When every role of a user was returned by the constructor of
    [Role] called with an array of permissions or with none, and the user
    was returned by the constructor of [User], [authorizeUser] returns a
    boolean on every permission name and every [Target]: it does not throw. *)
Theorem authorizeUser_on_constructed_user
    (rs : list Role) (userId userName : Val) (u : User) (a : string) (t : Target) :
  Forall (fun r =>
            exists roleId roleName roleDescription target perms,
              Role_constructor roleId roleName roleDescription target perms = Ok r
              /\ (perms = VUndefined \/ exists ps, perms = VArr ps)) rs ->
  User_constructor userId userName (VArr (map VRole rs)) = Ok u ->
  is_permission a = true ->
  exists b, RBACUtil.authorizeUser (VUser u) (VStr a) (VTarget t) = Ok (VBool b).
Proof.
  intros Hrs Hu Ha.
  rewrite (authorizeUser_loop a t Ha u), (User_constructor_roles _ _ _ _ Hu).
  rewrite (any_role_authorizes_existsb a t Ha rs); [eexists; reflexivity |].
  apply Forall_forall. intros r Hr. rewrite Forall_forall in Hrs.
  destruct (Hrs r Hr) as [i [n [d [tg [perms [Hc Hperms]]]]]].
  destruct (Role_constructor_permissions _ _ _ _ _ _ Hc) as [Harr Hdef].
  destruct Hperms as [-> | [ps ->]].
  - exists []. now apply Hdef.
  - now apply (Harr ps).
Qed.

Lemma authorizeUser_on_constructed_user_witness :
  exists b,
    RBACUtil.authorizeUser RBACDemo.bala (VStr Permission.DELETE)
      (VTarget (RBACDemo.path ["InGen"; "HR"; "job555"; "discussion999"]))
    = Ok (VBool b).
Proof.
  apply (authorizeUser_on_constructed_user [RBACDemo.ingenAdmin]
           (VStr "bala") (VStr "Bala")); try reflexivity.
  repeat constructor.
  exists (VStr "IngenAdmin"), (VStr "IngenAdmin"),
    (VStr "Admin role with all permissions for InGen tenant"),
    (VTarget (RBACDemo.path ["InGen"])), (RBACDemo.names [Permission.ALL]).
  split; [reflexivity | right; eexists; reflexivity].
Defined.
